(** * hue-cli: the entertainment streaming pipeline

    A shallow embedding of the DTLS frame encoder and sender
    ([buildStreamMessage], [SendColors]), of the activation path of
    [StartWebSocketServer], of the WebSocket producer handler
    ([handleWebSocket]), of the status query ([handleStatus]) and of the
    keep-alive task ([keepAlive]), with the properties of the streaming
    specification stated over them.

    Conventions:
    - Go's [uint8] and [uint16] are [Z] with the wrap-around written out;
    - a [bytes.Buffer] is the [list Z] of its bytes, each in [0, 255];
    - [map[string]RGB] is [gmap string RGB];
    - a Go [error] is [option string] ([None] is [nil]);
    - what the environment decides (the outcome of a datagram write, of a
      handshake, of a control-plane call) is read from a script carried by
      the state, so that every operation is a function that computes. *)

From Stdlib Require Import ZArith Ascii String List Lia Bool.
From stdpp Require Import base option list gmap strings.

Local Open Scope string_scope.
Local Open Scope list_scope.
Local Open Scope Z_scope.

(** ** Machine integers *)

Module Int.

(** Conversion to [uint8]: the low eight bits. *)
Definition uint8 (x : Z) : Z := x mod 256.

(** Conversion to [uint16]: the low sixteen bits. *)
Definition uint16 (x : Z) : Z := x mod 65536.

(** [x << n] computed in [uint16]. *)
Definition shl16 (x : Z) (n : Z) : Z := uint16 (Z.shiftl x n).

(** [x++] on a [uint8]. *)
Definition incr8 (x : Z) : Z := uint8 (x + 1).

Definition is_uint8 (x : Z) : Prop := 0 <= x < 256.
Definition is_uint16 (x : Z) : Prop := 0 <= x < 65536.

(** [binary.Write(buf, binary.BigEndian, v)] for a [uint16] [v]: the two
    bytes appended to the buffer, high byte first. *)
Definition be16 (v : Z) : list Z :=
  [Z.land (Z.shiftr v 8) 255; Z.land v 255].

(** The 16-bit value a pair of big-endian bytes stands for. *)
Definition of_be16 (bs : list Z) : Z :=
  match bs with
  | [hi; lo] => hi * 256 + lo
  | _ => 0
  end.

End Int.

(** ** Text scanning: [fmt.Sscanf(str, "%d", &v)] with [v] a [uint16]

    The frame encoder reads a light identifier with [fmt.Sscanf] and the
    verb [%d] into a [uint16] and ignores the returned error.  Package [fmt]
    scans an unsigned integer in these steps, mirrored below: [SkipSpace]
    (a newline is an error for [Sscanf]), [scanNumber] over the decimal
    digits (no sign is accepted for an unsigned operand; at least one digit
    is required), [strconv.ParseUint] in base 10 on 64 bits, then the
    overflow check against the operand's width.  Any error leaves the
    operand as it was. *)

Module Scan.

Definition code (c : ascii) : Z := Z.of_N (N_of_ascii c).

Definition is_digit (c : ascii) : bool :=
  (48 <=? code c) && (code c <=? 57).

Definition digit_val (c : ascii) : Z := code c - 48.

(** The one-byte members of [fmt]'s space table other than the newline:
    tab, vertical tab, form feed, carriage return and the blank. *)
Definition is_space1 (c : ascii) : bool :=
  let n := code c in
  (n =? 9) || (n =? 11) || (n =? 12) || (n =? 13) || (n =? 32).

(** The members of the space table above U+007F, as the UTF-8 bytes the
    scanner decodes: U+0085 and U+00A0 on two bytes; U+1680,
    U+2000..U+200A, U+2028, U+2029, U+202F, U+205F and U+3000 on three. *)
Definition is_space2 (a b : ascii) : bool :=
  (code a =? 194) && ((code b =? 133) || (code b =? 160)).

Definition is_space3 (a b c : ascii) : bool :=
  let x := code a in let y := code b in let z := code c in
  ((x =? 225) && (y =? 154) && (z =? 128))
  || ((x =? 226) && (y =? 128)
      && (((128 <=? z) && (z <=? 138)) || (z =? 168) || (z =? 169) || (z =? 175)))
  || ((x =? 226) && (y =? 129) && (z =? 159))
  || ((x =? 227) && (y =? 128) && (z =? 128)).

(** [SkipSpace]: the input after the leading spaces, or [None] when a
    newline is met (the "unexpected newline" error). *)
Fixpoint SkipSpace (s : string) : option string :=
  match s with
  | EmptyString => Some s
  | String a r1 =>
      if code a =? 10 then None
      else if is_space1 a then SkipSpace r1
      else
        match r1 with
        | EmptyString => Some s
        | String b r2 =>
            if is_space2 a b then SkipSpace r2
            else
              match r2 with
              | EmptyString => Some s
              | String c r3 =>
                  if is_space3 a b c then SkipSpace r3 else Some s
              end
        end
  end.

(** [scanNumber]: the longest prefix made of decimal digits. *)
Fixpoint scanNumber (s : string) : string :=
  match s with
  | EmptyString => EmptyString
  | String c r => if is_digit c then String c (scanNumber r) else EmptyString
  end.

(** The value of a run of decimal digits, most significant first. *)
Fixpoint decimal_from (acc : Z) (tok : string) : Z :=
  match tok with
  | EmptyString => acc
  | String c r => decimal_from (acc * 10 + digit_val c) r
  end.

Definition decimal (tok : string) : Z := decimal_from 0 tok.

(** [strconv.ParseUint(tok, 10, 64)] on a token of digits: a range error
    above [2^64 - 1]. *)
Definition ParseUint (tok : string) : option Z :=
  let i := decimal tok in
  if i <? 2 ^ 64 then Some i else None.

(** [scanUint(verb, bitSize)] for the verb [%d]. *)
Definition scanUint (bitSize : Z) (s : string) : option Z :=
  match SkipSpace s with
  | None => None
  | Some rest =>
      match scanNumber rest with
      | EmptyString => None
      | tok =>
          match ParseUint tok with
          | None => None
          | Some i => if i <? 2 ^ bitSize then Some i else None
          end
      end
  end.

(** The operand after [fmt.Sscanf(str, "%d", &v)], the error dropped. *)
Definition Sscanf_d_uint16 (str : string) (v : Z) : Z :=
  match scanUint 16 str with
  | Some i => i
  | None => v
  end.

(** A string that is a decimal numeral: one digit or more, nothing else. *)
Fixpoint all_digits (s : string) : bool :=
  match s with
  | EmptyString => true
  | String c r => is_digit c && all_digits r
  end.

Definition numeric (s : string) : bool :=
  match s with
  | EmptyString => false
  | _ => all_digits s
  end.

End Scan.

(** ** The data model *)

(** [type RGB struct { R, G, B uint8 }] *)
Record RGB := mkRGB { R : Z; G : Z; B : Z }.

Definition RGB_ok (c : RGB) : Prop :=
  Int.is_uint8 (R c) /\ Int.is_uint8 (G c) /\ Int.is_uint8 (B c).

(** The fields of [EntertainmentArea] that the streaming code reads. *)
Record EntertainmentArea := mkArea {
  ID : string;
  Name : string;
  Lights : list string
}.

(** The DTLS connection, seen from the sender: the datagrams accepted so
    far, oldest first, and the outcome of the coming writes ([true]: the
    write returns an error; an exhausted script means success). *)
Record Conn := mkConn {
  sent : list (list Z);
  faults : list bool
}.

(** [conn.Write(p)]: the connection afterwards and the error, if any. *)
Definition Write (c : Conn) (p : list Z) : Conn * option string :=
  match faults c with
  | true :: fs => (mkConn (sent c) fs, Some "write failed")
  | false :: fs => (mkConn (sent c ++ [p]) fs, None)
  | [] => (mkConn (sent c ++ [p]) [], None)
  end.

(** [DTLSStream], without the stop channel and the update rate, which the
    sender does not read. *)
Record DTLSStream := mkStream {
  conn : Conn;
  area : EntertainmentArea;
  sequenceNum : Z;
  isActive : bool
}.

(** ** The frame encoder *)

(** [buf.WriteString(s)]: the bytes of [s]. *)
Definition string_bytes (s : string) : list Z :=
  map Scan.code (list_ascii_of_string s).

(** The sixteen bytes written before the per-light loop. *)
Definition header (seq : Z) : list Z :=
  string_bytes "HueStream" ++ [1; 0] ++ [seq] ++ [0; 0] ++ [0] ++ [0].

(** The body of the per-light loop: the bytes appended for [lightID]. *)
Definition light_record (lightColors : gmap string RGB) (lightID : string) : list Z :=
  let rgb := match lightColors !! lightID with
             | Some c => c
             | None => mkRGB 0 0 0
             end in
  let lightIDNum := Scan.Sscanf_d_uint16 lightID 0 in
  [0] ++ Int.be16 lightIDNum
      ++ Int.be16 (Int.shl16 (R rgb) 8)
      ++ Int.be16 (Int.shl16 (G rgb) 8)
      ++ Int.be16 (Int.shl16 (B rgb) 8).

(** [buildStreamMessage]: the header, then the loop over [s.area.Lights],
    each iteration appending to the buffer. *)
Definition buildStreamMessage (s : DTLSStream) (lightColors : gmap string RGB) : list Z :=
  fold_left (fun buf lightID => buf ++ light_record lightColors lightID)
            (Lights (area s)) (header (sequenceNum s)).

(** ** Reading a frame back *)

Module Frame.

(** The nine bytes of the [i]-th light record. *)
Definition record_at (i : nat) (buf : list Z) : list Z :=
  take 9 (drop (16 + 9 * i) buf).

Definition seq_byte (buf : list Z) : Z := nth 11 buf 0.

Definition entry_type (rec : list Z) : Z := nth 0 rec 0.
Definition light_id (rec : list Z) : Z := Int.of_be16 (take 2 (drop 1 rec)).
Definition red (rec : list Z) : Z := Int.of_be16 (take 2 (drop 3 rec)).
Definition green (rec : list Z) : Z := Int.of_be16 (take 2 (drop 5 rec)).
Definition blue (rec : list Z) : Z := Int.of_be16 (take 2 (drop 7 rec)).

(** The colour triplet of the [i]-th light record. *)
Definition rgb_at (i : nat) (buf : list Z) : Z * Z * Z :=
  let rec := record_at i buf in (red rec, green rec, blue rec).

End Frame.

(** ** Sending *)

(** [SendColors]: the stream afterwards and the returned error. *)
Definition SendColors (s : DTLSStream) (lightColors : gmap string RGB)
  : DTLSStream * option string :=
  if negb (isActive s) then (s, Some "stream not active")
  else
    let buf := buildStreamMessage s lightColors in
    let (c, err) := Write (conn s) buf in
    match err with
    | Some e =>
        (mkStream c (area s) (sequenceNum s) (isActive s),
         Some ("failed to send DTLS message: " +:+ e))
    | None =>
        (mkStream c (area s) (Int.incr8 (sequenceNum s)) (isActive s), None)
    end.

(** [Close]: the flag is cleared, the transport released. *)
Definition Close (s : DTLSStream) : DTLSStream :=
  mkStream (conn s) (area s) (sequenceNum s) false.

(** ** Activation of the bridge server

    [StartWebSocketServer] talks to the bridge's control API, opens the DTLS
    session and then serves.  The calls it makes are recorded as events, in
    order; what the bridge and the network answer is read from scripts. *)

Inductive Outcome (A : Type) :=
| Ok (a : A)
| Fail (e : string).
Arguments Ok {A} a.
Arguments Fail {A} e.

(** How [ListenAndServe] ends. *)
Inductive ServeEnd :=
| ServerClosed
| ServeError (e : string).

(** The bridge server's state ([WebSocketServer]); the area is the field
    [area] of the source, the mutex and the stop channel are left to the
    step semantics below. *)
Record WebSocketServer := mkServer {
  port : Z;
  dtlsStream : option DTLSStream;
  server_area : EntertainmentArea;
  isStreaming : bool;
  lastMessageTime : Z;
  lastColors : gmap string RGB
}.

Inductive Event :=
| EvActivate (groupID : string)
| EvDeactivate (groupID : string)
| EvOpen (areaID : string)
| EvSleep (nanoseconds : Z)
| EvKeepAlive
| EvServe (server : WebSocketServer)
| EvStop
| EvClose.

Record World := mkWorld {
  trace : list Event;
  activations : list (option string);
  opens : list (Outcome Conn);
  serving : ServeEnd;
  clock : Z
}.

Definition M (A : Type) : Type := World -> A * World.

#[local] Instance M_ret : MRet M := fun A (a : A) (w : World) => (a, w).
#[local] Instance M_bind : MBind M :=
  fun A B (f : A -> M B) (m : M A) (w : World) => let (a, w') := m w in f a w'.

Definition emit (e : Event) : M unit :=
  fun w => (tt, mkWorld (trace w ++ [e]) (activations w) (opens w) (serving w) (clock w)).

Definition Now : M Z := fun w => (clock w, w).

(** [activateStreaming(groupID)]: the error the control plane answers. *)
Definition activateStreaming (groupID : string) : M (option string) :=
  fun w =>
    let w' := mkWorld (trace w ++ [EvActivate groupID])
                      (tail (activations w)) (opens w) (serving w) (clock w) in
    match activations w with
    | Some e :: _ => (Some e, w')
    | _ => (None, w')
    end.

(** [deactivateStreaming(groupID)], whose error no caller reads. *)
Definition deactivateStreaming (groupID : string) : M unit :=
  emit (EvDeactivate groupID).

Definition Sleep (d : Z) : M unit := emit (EvSleep d).

(** [createDTLSStreamConnection(area)]: on success a stream over the new
    connection, sequence number 0, active; every failure of the source
    (configuration, key, address, socket, handshake) is an error. *)
Definition createDTLSStreamConnection (a : EntertainmentArea) : M (Outcome DTLSStream) :=
  fun w =>
    let w' := mkWorld (trace w ++ [EvOpen (ID a)])
                      (activations w) (tail (opens w)) (serving w) (clock w) in
    match opens w with
    | Fail e :: _ => (Fail e, w')
    | Ok c :: _ => (Ok (mkStream c a 0 true), w')
    | [] => (Ok (mkStream (mkConn [] []) a 0 true), w')
    end.

(** [cleanup]: stop the keep-alive task, close the stream, deactivate. *)
Definition cleanup (s : WebSocketServer) : M unit :=
  emit EvStop;;
  match dtlsStream s with
  | Some _ => emit EvClose
  | None => mret tt
  end;;
  deactivateStreaming (ID (server_area s)).

Definition ListenAndServe (s : WebSocketServer) : M ServeEnd :=
  fun w => (serving w,
            mkWorld (trace w ++ [EvServe s]) (activations w) (opens w) (serving w) (clock w)).

(** [StartWebSocketServer(area, port)]: the returned error. *)
Definition StartWebSocketServer (a : EntertainmentArea) (p : Z) : M (option string) :=
  now ← Now;
  let server := mkServer p None a false now ∅ in
  err ← activateStreaming (ID a);
  match err with
  | Some e => mret (Some ("failed to activate streaming: " +:+ e))
  | None =>
      first ← createDTLSStreamConnection a;
      opened ← match first with
               | Ok st => mret (Ok st)
               | Fail _ =>
                   deactivateStreaming (ID a);;
                   Sleep 1000;;
                   second ← createDTLSStreamConnection a;
                   match second with
                   | Ok st => mret (Ok st)
                   | Fail e =>
                       deactivateStreaming (ID a);;
                       mret (Fail ("failed to create DTLS connection: " +:+ e))
                   end
               end;
      match opened with
      | Fail e => mret (Some e)
      | Ok st =>
          let server := mkServer p (Some st) a false now ∅ in
          emit EvKeepAlive;;
          served ← ListenAndServe server;
          match served with
          | ServeError e => cleanup server;; mret (Some e)
          | ServerClosed => mret None
          end
      end
  end.

(** The number of session openings in a trace. *)
Definition is_open (e : Event) : bool :=
  match e with
  | EvOpen _ => true
  | _ => false
  end.

Definition count_opens (t : list Event) : nat :=
  length (List.filter is_open t).

(** ** Producer messages

    A producer sends JSON text; the handler reads it with
    [conn.ReadJSON(&msg)] into a [LightColorMessage], whose channels are
    [uint8] fields.  The messages considered are the objects with a
    [lights] field mapping identifiers to objects with integer [r], [g],
    [b]; the integers are kept as the text has them. *)

Record JsonColor := mkJsonColor { jr : Z; jg : Z; jb : Z }.

Inductive Inbound :=
| ReadFailure
| JsonText (lights : list (string * JsonColor)).

(** [LightColorMessage]: identifier to channels, each a [uint8]. *)
Record LightColorMessage := mkMessage { msg_Lights : gmap string RGB }.

(** Package [encoding/json] stores a number into an unsigned field only
    when it parses as an unsigned integer that does not overflow the field;
    otherwise it records an [UnmarshalTypeError], which the decoder returns
    once the value is read. *)
Definition json_uint8 (n : Z) : option Z :=
  if (0 <=? n) && (n <=? 255) then Some n else None.

Definition json_color (c : JsonColor) : option RGB :=
  r ← json_uint8 (jr c);
  g ← json_uint8 (jg c);
  b ← json_uint8 (jb c);
  Some (mkRGB r g b).

(** The entries of the [lights] object, a later key replacing an earlier
    equal one; an entry that does not decode makes the message an error. *)
Fixpoint json_lights (acc : gmap string RGB) (l : list (string * JsonColor))
  : option (gmap string RGB) :=
  match l with
  | [] => Some acc
  | (k, c) :: rest =>
      match json_color c with
      | Some v => json_lights (<[k := v]> acc) rest
      | None => None
      end
  end.

(** [conn.ReadJSON(&msg)]: the message, or [None] for an error. *)
Definition ReadJSON (x : Inbound) : option LightColorMessage :=
  match x with
  | ReadFailure => None
  | JsonText l => mkMessage <$> json_lights ∅ l
  end.

(** ** The producer handler, the status query and the keep-alive task

    The tasks share the server state.  A step is the entry of a producer
    into its read loop, one turn of that loop, or one tick of the keep-alive
    timer.  The flag, the cached colours and the time of the last message
    are written under the mutex.  [SendColors] is called outside it and the
    source takes no lock around the call; a step runs its call to the end,
    so the runs below are those in which no two sends overlap.  [reading]
    is the set of producer connections inside their read loop; [replies]
    collects the error objects written back to producers. *)

Record Bridge := mkBridge {
  server : WebSocketServer;
  reading : gset nat;
  replies : list (nat * string)
}.

Definition with_stream (s : WebSocketServer) (st : DTLSStream) : WebSocketServer :=
  mkServer (port s) (Some st) (server_area s) (isStreaming s)
           (lastMessageTime s) (lastColors s).

Definition with_streaming (s : WebSocketServer) (b : bool) : WebSocketServer :=
  mkServer (port s) (dtlsStream s) (server_area s) b
           (lastMessageTime s) (lastColors s).

Definition with_last (s : WebSocketServer) (t : Z) (colors : gmap string RGB)
  : WebSocketServer :=
  mkServer (port s) (dtlsStream s) (server_area s) (isStreaming s) t colors.

(** [handleWebSocket], after the upgrade: the flag is set and the loop
    entered. *)
Definition ws_enter (p : nat) (b : Bridge) : Bridge :=
  mkBridge (with_streaming (server b) true) ({[p]} ∪ reading b) (replies b).

(** [handleWebSocket], after the loop: the flag is cleared. *)
Definition ws_leave (p : nat) (b : Bridge) : Bridge :=
  mkBridge (with_streaming (server b) false) (reading b ∖ {[p]}) (replies b).

(** One turn of the read loop of producer [p], [x] being what arrives.  A
    nil stream makes [SendColors] panic: the handler is gone without
    running the code after the loop. *)
Definition ws_turn (p : nat) (now : Z) (x : Inbound) (b : Bridge) : Bridge :=
  match ReadJSON x with
  | None => ws_leave p b
  | Some msg =>
      let colors := (fun color => mkRGB (R color) (G color) (B color)) <$> msg_Lights msg in
      match dtlsStream (server b) with
      | None => mkBridge (server b) (reading b ∖ {[p]}) (replies b)
      | Some st =>
          let (st', err) := SendColors st colors in
          match err with
          | Some e =>
              ws_leave p (mkBridge (with_stream (server b) st') (reading b)
                                   (replies b ++ [(p, e)]))
          | None =>
              mkBridge (with_last (with_stream (server b) st') now colors)
                       (reading b) (replies b)
          end
      end
  end.

(** The colours a keep-alive tick sends. *)
Definition keepAlive_colors (s : WebSocketServer) : gmap string RGB :=
  let last := lastColors s in
  if bool_decide (0 < size last)%nat then last
  else fold_left (fun colors lightID => <[lightID := mkRGB 0 0 0]> colors)
                 (Lights (server_area s)) ∅.

(** One tick of [keepAlive]. *)
Definition keepAlive_tick (now : Z) (s : WebSocketServer) : WebSocketServer :=
  match dtlsStream s with
  | None => s
  | Some st =>
      let colors := keepAlive_colors s in
      let (st', err) := SendColors st colors in
      match err with
      | Some _ => with_stream s st'
      | None => with_last (with_stream s st') now (lastColors s)
      end
  end.

(** The body of the status answer. *)
Record Status := mkStatus {
  streaming : bool;
  status_area : string;
  status_lights : list string;
  status_port : Z
}.

(** [handleStatus]: no body for the preflight request. *)
Definition handleStatus (method : string) (s : WebSocketServer) : option Status :=
  if String.eqb method "OPTIONS" then None
  else Some (mkStatus (isStreaming s) (Name (server_area s))
                      (Lights (server_area s)) (port s)).

(** What happens at the bridge, in the order it happens. *)
Inductive Step :=
| Upgrade (p : nat)
| Turn (p : nat) (now : Z) (x : Inbound)
| Tick (now : Z).

(** A producer enters its loop once, and only a producer inside its loop
    takes a turn. *)
Definition step (b : Bridge) (e : Step) : Bridge :=
  match e with
  | Upgrade p => if bool_decide (p ∈ reading b) then b else ws_enter p b
  | Turn p now x => if bool_decide (p ∈ reading b) then ws_turn p now x b else b
  | Tick now => mkBridge (keepAlive_tick now (server b)) (reading b) (replies b)
  end.

Definition run (b : Bridge) (es : list Step) : Bridge := fold_left step es b.

(** [handleWebSocket] for one producer taken alone: after a successful
    upgrade, turns of the loop for as long as the producer stays in it. *)
Fixpoint read_loop (p : nat) (inbound : list (Z * Inbound)) (b : Bridge) : Bridge :=
  match inbound with
  | [] => b
  | (now, x) :: rest =>
      let b' := ws_turn p now x b in
      if bool_decide (p ∈ reading b') then read_loop p rest b' else b'
  end.

Definition handleWebSocket (upgraded : bool) (p : nat)
    (inbound : list (Z * Inbound)) (b : Bridge) : Bridge :=
  if upgraded then read_loop p inbound (ws_enter p b) else b.

(** [keepAlive]: a tick at each firing of the timer, until the stop channel
    is closed. *)
Inductive Signal :=
| TickerC (now : Z)
| StopChan.

Fixpoint keepAlive (signals : list Signal) (s : WebSocketServer) : WebSocketServer :=
  match signals with
  | [] => s
  | TickerC now :: rest => keepAlive rest (keepAlive_tick now s)
  | StopChan :: _ => s
  end.

(** The bridge when serving starts. *)
Definition serve_start (s : WebSocketServer) : Bridge := mkBridge s ∅ [].

(** ** Vocabulary of the statements *)

(** The colour the loop body encodes for a light. *)
Definition color_of (colors : gmap string RGB) (id : string) : RGB :=
  match colors !! id with
  | Some c => c
  | None => mkRGB 0 0 0
  end.

(** The next write on the connection returns an error. *)
Definition write_fails (c : Conn) : Prop := head (faults c) = Some true.

(** What the session owns besides the transport. *)
Definition session_state (s : DTLSStream) : EntertainmentArea * Z * bool :=
  (area s, sequenceNum s, isActive s).

(** The control plane accepts the activation call. *)
Definition activation_accepted (w : World) : Prop :=
  forall e, head (activations w) <> Some (Some e).

(** The identifier begins, after its leading spaces, with a digit. *)
Definition starts_number (s : string) : bool :=
  match Scan.SkipSpace s with
  | Some (String c _) => Scan.is_digit c
  | _ => false
  end.

(** The map the keeper builds when nothing is cached. *)
Definition all_black (l : list string) (m : gmap string RGB) : gmap string RGB :=
  fold_left (fun colors lightID => <[lightID := mkRGB 0 0 0]> colors) l m.

(** What every reachable bridge state satisfies: a set flag has a producer
    behind it, and the session is there. *)
Definition flag_sound (b : Bridge) : Prop :=
  (isStreaming (server b) = true -> reading b <> ∅)
  /\ is_Some (dtlsStream (server b)).

(** The channels of a written colour are all within 0-255. *)
Definition in_range (c : JsonColor) : Prop :=
  Int.is_uint8 (jr c) /\ Int.is_uint8 (jg c) /\ Int.is_uint8 (jb c).

(** The colours of a message taken as they are written, a later key
    replacing an earlier equal one. *)
Definition as_written (acc : gmap string RGB) (l : list (string * JsonColor))
  : gmap string RGB :=
  fold_left (fun a kv => <[kv.1 := mkRGB (jr kv.2) (jg kv.2) (jb kv.2)]> a) l acc.

(** ** Vocabulary of the further statements *)

(** The colour map holds [uint8] channels only, as its Go type has it. *)
Definition colors_ok (colors : gmap string RGB) : Prop :=
  forall id c, colors !! id = Some c -> RGB_ok c.

(** The frames on the wire are numbered from 0 modulo 256 and have the
    length of a frame for the area [a]; the stream's counter is the number
    of the next one. *)
Definition wire_sound (a : EntertainmentArea) (st : DTLSStream) : Prop :=
  area st = a
  /\ sequenceNum st = Z.of_nat (length (sent (conn st))) mod 256
  /\ forall (k : nat) (f : list Z),
       sent (conn st) !! k = Some f ->
       Frame.seq_byte f = Z.of_nat k mod 256
       /\ length f = (16 + 9 * length (Lights a))%nat.

(** The events an activation adds to the trace. *)
Definition new_events (a : EntertainmentArea) (p : Z) (w : World) : list Event :=
  drop (length (trace w)) (trace (StartWebSocketServer a p w).2).

(** The light records a message's colours are encoded to. *)
Definition records_of (a : EntertainmentArea) (l : list (string * JsonColor)) : list Z :=
  flat_map (light_record (as_written ∅ l)) (Lights a).

(** [SendColors] called once per colour map, each call returning before the
    next begins; the stream as the last call leaves it. *)
Definition send_all (st : DTLSStream) (calls : list (gmap string RGB)) : DTLSStream :=
  fold_left (fun s colors => (SendColors s colors).1) calls st.

(** A closed session, with what the bridge caches. *)
Definition silent (st : DTLSStream) (s0 : WebSocketServer) (b : Bridge) : Prop :=
  dtlsStream (server b) = Some st
  /\ lastColors (server b) = lastColors s0
  /\ lastMessageTime (server b) = lastMessageTime s0.

(** The send of a stream fails: it is closed, or its next write fails. *)
Definition send_fails (st : DTLSStream) : Prop :=
  isActive st = false \/ write_fails (conn st).

(** A message whose channels are all within 0-255. *)
Definition message_in_range (l : list (string * JsonColor)) : Prop :=
  Forall (fun kv => in_range kv.2) l.

(** What a producer sends, as the handler's read loop sees it. *)
Definition as_inbound (msgs : list (Z * list (string * JsonColor))) : list (Z * Inbound) :=
  map (fun m => (m.1, JsonText m.2)) msgs.

(** ** The effects

    [StreamEffect] runs one of four loops, each paced by a ticker and ended
    by the clock.  The readings of [time.Since(startTime)] at the loop tests
    are given as a list, in nanoseconds, one per test; a list that ends
    before a test fails stands for a clock that has passed the deadline.
    What the loops compute in floating point is left to parameters:
    [hsvToRGB h] is the source's [hsvToRGB(h, 1.0, 1.0)] at an integral hue
    (the rainbow hues 0, 2, 4, ... and the random hues are integral and exact
    in [float64]); [pulse_intensity k] is the intensity of the pulse at its
    [k]-th tick; [wave_color offset i n] is the colour of the [i]-th of [n]
    lights at an (integral) offset. *)

(** [time.Duration(durationSec) * time.Second], a product on 64 bits. *)
Definition wrap64 (x : Z) : Z := (x + 2 ^ 63) mod 2 ^ 64 - 2 ^ 63.

Definition seconds (durationSec : Z) : Z := wrap64 (durationSec * 1000000000).

Section Effects.

Variable hsvToRGB : Z -> RGB.
Variable pulse_intensity : nat -> Z.
Variable wave_color : Z -> nat -> nat -> RGB.

(** The colour map of a rainbow tick: every light at the hue. *)
Definition rainbow_colors (lights : list string) (hue : Z) : gmap string RGB :=
  fold_left (fun colors lightID => <[lightID := hsvToRGB hue]> colors) lights ∅.

Fixpoint rainbow_loop (since : list Z) (duration hue : Z) (s : DTLSStream)
  : DTLSStream * option string :=
  match since with
  | [] => (s, None)
  | t :: rest =>
      if t <? duration then
        let colors := rainbow_colors (Lights (area s)) hue in
        let (s', err) := SendColors s colors in
        match err with
        | Some e => (s', Some e)
        | None =>
            let hue := hue + 2 in
            let hue := if 360 <=? hue then 0 else hue in
            rainbow_loop rest duration hue s'
        end
      else (s, None)
  end.

(** [streamRainbowEffect] *)
Definition streamRainbowEffect (since : list Z) (durationSec : Z) (s : DTLSStream)
  : DTLSStream * option string :=
  rainbow_loop since (seconds durationSec) 0 s.

(** The colour map of a pulse tick: every light at the intensity, on the
    three channels. *)
Definition pulse_colors (lights : list string) (intensity : Z) : gmap string RGB :=
  fold_left (fun colors lightID => <[lightID := mkRGB intensity intensity intensity]> colors)
            lights ∅.

Fixpoint pulse_loop (since : list Z) (duration : Z) (k : nat) (s : DTLSStream)
  : DTLSStream * option string :=
  match since with
  | [] => (s, None)
  | t :: rest =>
      if t <? duration then
        let colors := pulse_colors (Lights (area s)) (pulse_intensity k) in
        let (s', err) := SendColors s colors in
        match err with
        | Some e => (s', Some e)
        | None => pulse_loop rest duration (S k) s'
        end
      else (s, None)
  end.

(** [streamPulseEffect] *)
Definition streamPulseEffect (since : list Z) (durationSec : Z) (s : DTLSStream)
  : DTLSStream * option string :=
  pulse_loop since (seconds durationSec) 0%nat s.

(** The colour map of a wave tick: the light at position [i] at its own
    hue. *)
Fixpoint wave_colors_from (i : nat) (lights : list string) (offset : Z) (numLights : nat)
    (colors : gmap string RGB) : gmap string RGB :=
  match lights with
  | [] => colors
  | lightID :: rest =>
      wave_colors_from (S i) rest offset numLights
                       (<[lightID := wave_color offset i numLights]> colors)
  end.

Fixpoint wave_loop (since : list Z) (duration offset : Z) (s : DTLSStream)
  : DTLSStream * option string :=
  match since with
  | [] => (s, None)
  | t :: rest =>
      if t <? duration then
        let numLights := length (Lights (area s)) in
        let colors := wave_colors_from 0 (Lights (area s)) offset numLights ∅ in
        let (s', err) := SendColors s colors in
        match err with
        | Some e => (s', Some e)
        | None =>
            let offset := offset + 3 in
            let offset := if 360 <=? offset then 0 else offset in
            wave_loop rest duration offset s'
        end
      else (s, None)
  end.

(** [streamWaveEffect] *)
Definition streamWaveEffect (since : list Z) (durationSec : Z) (s : DTLSStream)
  : DTLSStream * option string :=
  wave_loop since (seconds durationSec) 0 s.

(** The colour map of a random tick: each light at the hue
    [time.Now().UnixNano() % 360], the clock being read once per light;
    the readings left over are returned. *)
Fixpoint random_colors (lights : list string) (nanos : list Z) (colors : gmap string RGB)
  : gmap string RGB * list Z :=
  match lights with
  | [] => (colors, nanos)
  | lightID :: rest =>
      let now := hd 0 nanos in
      random_colors rest (tl nanos) (<[lightID := hsvToRGB (Z.rem now 360)]> colors)
  end.

Fixpoint random_loop (since nanos : list Z) (duration : Z) (s : DTLSStream)
  : DTLSStream * option string :=
  match since with
  | [] => (s, None)
  | t :: rest =>
      if t <? duration then
        let (colors, nanos') := random_colors (Lights (area s)) nanos ∅ in
        let (s', err) := SendColors s colors in
        match err with
        | Some e => (s', Some e)
        | None => random_loop rest nanos' duration s'
        end
      else (s, None)
  end.

(** [streamRandomEffect] *)
Definition streamRandomEffect (since nanos : list Z) (durationSec : Z) (s : DTLSStream)
  : DTLSStream * option string :=
  random_loop since nanos (seconds durationSec) s.

(** [StreamEffect] *)
Definition StreamEffect (effectName : string) (durationSec : Z)
    (since nanos : list Z) (s : DTLSStream) : DTLSStream * option string :=
  if String.eqb effectName "rainbow" then streamRainbowEffect since durationSec s
  else if String.eqb effectName "pulse" then streamPulseEffect since durationSec s
  else if String.eqb effectName "wave" then streamWaveEffect since durationSec s
  else if String.eqb effectName "random" then streamRandomEffect since nanos durationSec s
  else (s, Some ("unknown effect: " +:+ effectName)).

End Effects.

(** The names [StreamEffect] knows. *)
Definition known_effect (effectName : string) : bool :=
  String.eqb effectName "rainbow" || String.eqb effectName "pulse"
  || String.eqb effectName "wave" || String.eqb effectName "random".

(** ** Running an effect from the command line

    [streamEffect] prepares the bridge, tries the DTLS session and falls
    back to the HTTP path.  The HTTP effects talk to the bridge through an
    external client; they are the parameter [runEffect], a computation on
    the world.  The clock readings of the DTLS effect are arguments, as
    above. *)

Section CommandLine.

Variable hsvToRGB : Z -> RGB.
Variable pulse_intensity : nat -> Z.
Variable wave_color : Z -> nat -> nat -> RGB.
Variable runEffect : string -> EntertainmentArea -> Z -> M (option string).

(** [streamEffectHTTP] *)
Definition streamEffectHTTP (a : EntertainmentArea) (effectName : string) (durationSec : Z)
  : M (option string) :=
  if String.eqb effectName "rainbow" then runEffect "rainbow" a durationSec
  else if String.eqb effectName "pulse" then runEffect "pulse" a durationSec
  else if String.eqb effectName "wave" then runEffect "wave" a durationSec
  else if String.eqb effectName "random" then runEffect "random" a durationSec
  else mret (Some ("unknown effect: " +:+ effectName)).

(** [streamEffect]: the two deferred calls run when the function returns,
    the last deferred first. *)
Definition streamEffect (a : EntertainmentArea) (effectName : string) (durationSec : Z)
    (since nanos : list Z) : M (option string) :=
  deactivateStreaming (ID a);;
  Sleep 500000000;;
  err ← activateStreaming (ID a);
  match err with
  | Some e => mret (Some e)
  | None =>
      opened ← createDTLSStreamConnection a;
      r ← match opened with
          | Fail _ => streamEffectHTTP a effectName durationSec
          | Ok dtlsStream =>
              let r := (StreamEffect hsvToRGB pulse_intensity wave_color
                                     effectName durationSec since nanos dtlsStream).2 in
              emit EvClose;;
              mret r
          end;
      deactivateStreaming (ID a);;
      mret r
  end.

End CommandLine.

(** The world once [streamEffect] has deactivated, paused, activated and
    tried to open the session. *)
Definition after_opening (a : EntertainmentArea) (w : World) : World :=
  mkWorld (trace w ++ [EvDeactivate (ID a); EvSleep 500000000;
                       EvActivate (ID a); EvOpen (ID a)])
          (tail (activations w)) (tail (opens w)) (serving w) (clock w).

(** The world with one more event. *)
Definition with_event (w : World) (e : Event) : World :=
  mkWorld (trace w ++ [e]) (activations w) (opens w) (serving w) (clock w).

(** The session [createDTLSStreamConnection] returns for the head of the
    script. *)
Definition opened_session (a : EntertainmentArea) (w : World) : DTLSStream :=
  match opens w with
  | Ok c :: _ => mkStream c a 0 true
  | _ => mkStream (mkConn [] []) a 0 true
  end.

(** The cached colours are those of a message of the run that was in
    range. *)
Definition cached_from (es : list Step) (colors : gmap string RGB) : Prop :=
  exists p t l,
    Turn p t (JsonText l) ∈ es /\ message_in_range l /\ colors = as_written ∅ l.

(** ** Examples *)

(** The area and the frame of the specification's example. *)
Definition ex_area : EntertainmentArea := mkArea "1" "TV" ["5"; "6"].
Definition ex_stream : DTLSStream := mkStream (mkConn [] []) ex_area 0 true.
Definition ex_colors : gmap string RGB := {[ "5" := mkRGB 255 0 0 ]}.

(** A stream whose counter is about to wrap, and one whose next write fails. *)
Definition ex_stream_255 : DTLSStream := mkStream (mkConn [] []) ex_area 255 true.
Definition ex_stream_failing : DTLSStream := mkStream (mkConn [] [true]) ex_area 7 true.

(** A stream whose only light carries an identifier that is not a numeral. *)
Definition ex_stream_5x : DTLSStream :=
  mkStream (mkConn [] []) (mkArea "1" "TV" ["5x"]) 0 true.

(** A world in which both handshakes fail. *)
Definition ex_world : World :=
  mkWorld [] [] [Fail "DTLS handshake failed: timeout"; Fail "DTLS handshake failed: timeout"]
          ServerClosed 0.

(** A server that has forwarded nothing yet. *)
Definition ex_server : WebSocketServer :=
  mkServer 8080 (Some ex_stream) ex_area false 0 ∅.

(** A producer message with a red channel of 300. *)
Definition ex_message_300 : Inbound := JsonText [("5", mkJsonColor 300 0 0)].

(** * Properties *)

(** ** Machine integers *)

Section IntFacts.
Import Int.

Lemma land_255 x : Z.land x 255 = x mod 256.
Proof. change 255 with (Z.ones 8). rewrite Z.land_ones by lia. reflexivity. Qed.

Lemma shiftr_8 x : Z.shiftr x 8 = x / 256.
Proof. rewrite Z.shiftr_div_pow2 by lia. reflexivity. Qed.

Lemma shiftl_8 x : Z.shiftl x 8 = x * 256.
Proof. rewrite Z.shiftl_mul_pow2 by lia. reflexivity. Qed.

Lemma be16_bytes v : be16 v = [(v / 256) mod 256; v mod 256].
Proof. unfold be16. now rewrite !land_255, shiftr_8. Qed.

Lemma of_be16_be16 v : is_uint16 v -> of_be16 (be16 v) = v.
Proof.
  unfold is_uint16. intros Hv. rewrite be16_bytes. cbn [of_be16].
  rewrite (Z.mod_small (v / 256)) by (split; [apply Z.div_pos | apply Z.div_lt_upper_bound]; lia).
  pose proof (Z.div_mod v 256). lia.
Qed.

Lemma shl16_uint8 x : is_uint8 x -> shl16 x 8 = Z.shiftl x 8.
Proof.
  unfold is_uint8, shl16, uint16. intros Hx.
  rewrite shiftl_8. apply Z.mod_small. lia.
Qed.

Lemma shl16_range x : is_uint16 (shl16 x 8).
Proof. unfold is_uint16, shl16, uint16. apply Z.mod_pos_bound. lia. Qed.

Lemma channel_roundtrip x :
  is_uint8 x -> of_be16 (be16 (shl16 x 8)) = Z.shiftl x 8.
Proof.
  intros Hx. rewrite of_be16_be16 by apply shl16_range.
  now apply shl16_uint8.
Qed.

End IntFacts.

(** ** The shape of a frame *)

Section Encoder.
Variable s : DTLSStream.
Variable colors : gmap string RGB.

Let buf := buildStreamMessage s colors.

Lemma append_loop (f : string -> list Z) (l : list string) (init : list Z) :
  fold_left (fun b x => b ++ f x) l init = init ++ flat_map f l.
Proof.
  revert init. induction l as [|x l IH]; intros init; simpl.
  - now rewrite app_nil_r.
  - rewrite IH. now rewrite <- app_assoc.
Qed.

Lemma buildStreamMessage_layout :
  buf = header (sequenceNum s) ++ flat_map (light_record colors) (Lights (area s)).
Proof. apply append_loop. Qed.

Lemma header_length n : length (header n) = 16%nat.
Proof. reflexivity. Qed.

Lemma light_record_length c id : length (light_record c id) = 9%nat.
Proof. reflexivity. Qed.

Lemma records_length (l : list string) :
  length (flat_map (light_record colors) l) = (9 * length l)%nat.
Proof.
  induction l as [|x l IH]; cbn [flat_map]; [reflexivity|].
  rewrite length_app, light_record_length, IH.
  cbn [length]. lia.
Qed.

Lemma records_drop (l : list string) (i : nat) (id : string) :
  l !! i = Some id ->
  take 9 (drop (9 * i) (flat_map (light_record colors) l)) = light_record colors id.
Proof.
  revert i. induction l as [|x l IH]; intros i Hi; [discriminate|].
  destruct i as [|i]; simpl in Hi.
  - injection Hi as ->. cbn [flat_map].
    change (9 * 0)%nat with 0%nat. rewrite drop_0.
    now rewrite take_app_length' by reflexivity.
  - cbn [flat_map].
    replace (9 * S i)%nat with (length (light_record colors x) + 9 * i)%nat
      by (rewrite light_record_length; lia).
    rewrite drop_app_add. now apply IH.
Qed.

Lemma record_at_light (i : nat) (id : string) :
  Lights (area s) !! i = Some id ->
  Frame.record_at i buf = light_record colors id.
Proof.
  intros Hi. unfold Frame.record_at. rewrite buildStreamMessage_layout.
  replace (16 + 9 * i)%nat with (length (header (sequenceNum s)) + 9 * i)%nat
    by (rewrite header_length; lia).
  rewrite drop_app_add. now apply records_drop.
Qed.

Lemma seq_byte_frame : Frame.seq_byte buf = sequenceNum s.
Proof.
  unfold Frame.seq_byte. rewrite buildStreamMessage_layout.
  rewrite app_nth1 by (rewrite header_length; lia). reflexivity.
Qed.

End Encoder.

Lemma light_record_fields (colors : gmap string RGB) (id : string) :
  Frame.entry_type (light_record colors id) = 0
  /\ take 2 (drop 1 (light_record colors id)) = Int.be16 (Scan.Sscanf_d_uint16 id 0)
  /\ take 2 (drop 3 (light_record colors id)) = Int.be16 (Int.shl16 (R (color_of colors id)) 8)
  /\ take 2 (drop 5 (light_record colors id)) = Int.be16 (Int.shl16 (G (color_of colors id)) 8)
  /\ take 2 (drop 7 (light_record colors id)) = Int.be16 (Int.shl16 (B (color_of colors id)) 8).
Proof. repeat split. Qed.

(** C1.  For every colour map and every fixture order, the frame has exactly
    [16 + 9 * len(order)] bytes: the sixteen-byte header (the tag
    "HueStream", version 01 00, the sequence byte, two reserved bytes, the
    colour-space byte 0 and one reserved byte) followed by one nine-byte
    record per fixture, in the order of the list. *)
Theorem frame_length_and_layout (s : DTLSStream) (colors : gmap string RGB) :
  length (buildStreamMessage s colors) = (16 + 9 * length (Lights (area s)))%nat
  /\ take 16 (buildStreamMessage s colors)
     = string_bytes "HueStream" ++ [1; 0; sequenceNum s; 0; 0; 0; 0]
  /\ drop 16 (buildStreamMessage s colors)
     = flat_map (light_record colors) (Lights (area s))
  /\ forall id, length (light_record colors id) = 9%nat.
Proof.
  rewrite buildStreamMessage_layout. split; [|split; [|split]].
  - rewrite length_app, header_length, records_length. reflexivity.
  - rewrite take_app_length' by reflexivity. reflexivity.
  - rewrite drop_app_length' by reflexivity. reflexivity.
  - intros id. apply light_record_length.
Qed.

(** C2.  A fixture of the order that the colour map lacks is encoded with
    the triplet (0,0,0); for a fixture the map has, each 16-bit big-endian
    channel is the 0-255 input shifted left by eight bits. *)
Theorem absent_black_present_shifted
    (s : DTLSStream) (colors : gmap string RGB) (i : nat) (id : string) :
  Lights (area s) !! i = Some id ->
  (forall c, colors !! id = Some c -> RGB_ok c) ->
  Frame.rgb_at i (buildStreamMessage s colors)
  = match colors !! id with
    | None => (0, 0, 0)
    | Some c => (Z.shiftl (R c) 8, Z.shiftl (G c) 8, Z.shiftl (B c) 8)
    end.
Proof.
  intros Hi Hok. unfold Frame.rgb_at. rewrite (record_at_light s colors i id Hi).
  unfold Frame.red, Frame.green, Frame.blue.
  destruct (light_record_fields colors id) as (_ & _ & -> & -> & ->).
  unfold color_of. destruct (colors !! id) as [c|] eqn:Hc.
  - destruct (Hok c eq_refl) as (Hr & Hg & Hb).
    now rewrite !channel_roundtrip.
  - reflexivity.
Qed.

(** The frame of the specification's example: the map with fixture "5" at
    (255,0,0), against the order "5", "6". *)
Lemma absent_black_present_shifted_example :
  Lights (area ex_stream) !! 0%nat = Some "5"
  /\ Lights (area ex_stream) !! 1%nat = Some "6"
  /\ (forall id c, ex_colors !! id = Some c -> RGB_ok c)
  /\ Frame.rgb_at 0 (buildStreamMessage ex_stream ex_colors) = (65280, 0, 0)
  /\ Frame.rgb_at 1 (buildStreamMessage ex_stream ex_colors) = (0, 0, 0).
Proof.
  assert (Hok : forall id c, ex_colors !! id = Some c -> RGB_ok c).
  { intros id c. unfold ex_colors. intros H.
    apply lookup_singleton_Some in H as [_ <-].
    repeat split; simpl; lia. }
  split; [reflexivity|]. split; [reflexivity|]. split; [exact Hok|]. split.
  - rewrite (absent_black_present_shifted ex_stream ex_colors 0 "5" eq_refl (Hok "5")).
    reflexivity.
  - rewrite (absent_black_present_shifted ex_stream ex_colors 1 "6" eq_refl (Hok "6")).
    reflexivity.
Defined.

(** ** Sending *)

Lemma Write_ok (c : Conn) (p : list Z) :
  ~ write_fails c ->
  Write c p = (mkConn (sent c ++ [p]) (tail (faults c)), None).
Proof.
  unfold write_fails, Write. destruct (faults c) as [|[|] fs]; simpl; intros H.
  - reflexivity.
  - now destruct H.
  - reflexivity.
Qed.

Lemma Write_fail (c : Conn) (p : list Z) :
  write_fails c ->
  exists e, Write c p = (mkConn (sent c) (tail (faults c)), Some e).
Proof.
  unfold write_fails, Write. destruct (faults c) as [|[|] fs]; simpl; intros H.
  - discriminate.
  - eexists. reflexivity.
  - discriminate.
Qed.

Lemma SendColors_inactive (s : DTLSStream) (colors : gmap string RGB) :
  isActive s = false -> SendColors s colors = (s, Some "stream not active").
Proof. unfold SendColors. now intros ->. Qed.

Lemma SendColors_ok (s : DTLSStream) (colors : gmap string RGB) :
  isActive s = true -> ~ write_fails (conn s) ->
  SendColors s colors
  = (mkStream (mkConn (sent (conn s) ++ [buildStreamMessage s colors])
                      (tail (faults (conn s))))
              (area s) (Int.incr8 (sequenceNum s)) true, None).
Proof.
  intros Ha Hw. unfold SendColors. rewrite Ha. cbn [negb].
  now rewrite (Write_ok _ _ Hw).
Qed.

Lemma SendColors_fail (s : DTLSStream) (colors : gmap string RGB) :
  isActive s = true -> write_fails (conn s) ->
  exists e, SendColors s colors
            = (mkStream (mkConn (sent (conn s)) (tail (faults (conn s))))
                        (area s) (sequenceNum s) true, Some e).
Proof.
  intros Ha Hw. unfold SendColors. rewrite Ha. cbn [negb].
  destruct (Write_fail _ (buildStreamMessage s colors) Hw) as [e ->].
  eexists. reflexivity.
Qed.

(** The three ways a call ends. *)
Lemma SendColors_cases (s : DTLSStream) (colors : gmap string RGB) :
  (isActive s = false /\ SendColors s colors = (s, Some "stream not active"))
  \/ (isActive s = true /\ write_fails (conn s)
      /\ exists e, SendColors s colors
                   = (mkStream (mkConn (sent (conn s)) (tail (faults (conn s))))
                               (area s) (sequenceNum s) true, Some e))
  \/ (isActive s = true /\ ~ write_fails (conn s)
      /\ SendColors s colors
         = (mkStream (mkConn (sent (conn s) ++ [buildStreamMessage s colors])
                             (tail (faults (conn s))))
                     (area s) (Int.incr8 (sequenceNum s)) true, None)).
Proof.
  destruct (isActive s) eqn:Ha.
  - destruct (decide (head (faults (conn s)) = Some true)) as [Hw|Hw].
    + right; left. auto using SendColors_fail.
    + right; right. auto using SendColors_ok.
  - left. auto using SendColors_inactive.
Qed.

Lemma SendColors_success (s s' : DTLSStream) (colors : gmap string RGB) :
  SendColors s colors = (s', None) ->
  isActive s = true
  /\ sent (conn s') = sent (conn s) ++ [buildStreamMessage s colors]
  /\ sequenceNum s' = Int.incr8 (sequenceNum s)
  /\ area s' = area s
  /\ isActive s' = true.
Proof.
  destruct (SendColors_cases s colors)
    as [(_ & E) | [(_ & _ & e & E) | (Ha & _ & E)]]; rewrite E; intros H;
    try discriminate.
  injection H as <-. auto.
Qed.

Lemma SendColors_error (s s' : DTLSStream) (colors : gmap string RGB) (e : string) :
  SendColors s colors = (s', Some e) ->
  session_state s' = session_state s /\ sent (conn s') = sent (conn s).
Proof.
  destruct (SendColors_cases s colors)
    as [(_ & E) | [(Ha & _ & e' & E) | (_ & _ & E)]]; rewrite E; intros H;
    try discriminate.
  - injection H as <- _. auto.
  - injection H as <- _. unfold session_state. cbn. now rewrite Ha.
Qed.

(** C3.  Of two consecutive successful [SendColors] calls on a stream, the
    second writes a frame whose sequence byte is the first frame's plus one
    modulo 256; after 255 comes 0. *)
Theorem consecutive_sequence_numbers
    (s s1 s2 : DTLSStream) (c1 c2 : gmap string RGB) :
  SendColors s c1 = (s1, None) ->
  SendColors s1 c2 = (s2, None) ->
  exists f1 f2,
    sent (conn s2) = sent (conn s) ++ [f1; f2]
    /\ Frame.seq_byte f2 = (Frame.seq_byte f1 + 1) mod 256
    /\ (Frame.seq_byte f1 = 255 -> Frame.seq_byte f2 = 0).
Proof.
  intros H1 H2.
  apply SendColors_success in H1 as (_ & Hs1 & Hn1 & _ & _).
  apply SendColors_success in H2 as (_ & Hs2 & _ & _ & _).
  exists (buildStreamMessage s c1), (buildStreamMessage s1 c2).
  rewrite Hs2, Hs1, <- app_assoc, !seq_byte_frame, Hn1.
  split; [reflexivity|]. split; [reflexivity|].
  intros ->. reflexivity.
Qed.

Lemma consecutive_sequence_numbers_wrap :
  let s1 := (SendColors ex_stream_255 ex_colors).1 in
  let s2 := (SendColors s1 ∅).1 in
  SendColors ex_stream_255 ex_colors = (s1, None)
  /\ SendColors s1 ∅ = (s2, None)
  /\ exists f1 f2,
       sent (conn s2) = sent (conn ex_stream_255) ++ [f1; f2]
       /\ Frame.seq_byte f2 = (Frame.seq_byte f1 + 1) mod 256
       /\ (Frame.seq_byte f1 = 255 -> Frame.seq_byte f2 = 0).
Proof.
  intros s1 s2.
  assert (H1 : SendColors ex_stream_255 ex_colors = (s1, None)) by reflexivity.
  assert (H2 : SendColors s1 ∅ = (s2, None)) by reflexivity.
  split; [exact H1|]. split; [exact H2|].
  exact (consecutive_sequence_numbers ex_stream_255 s1 s2 ex_colors ∅ H1 H2).
Defined.

(** C4, as the code has it.  When the write of an active stream fails,
    [SendColors] returns an error and the session is left as it was: the
    stream stays active, its sequence counter and its area are unchanged,
    nothing is put on the wire and the call opens no new connection. *)
Theorem write_failure_returns_error (s : DTLSStream) (colors : gmap string RGB) :
  isActive s = true ->
  write_fails (conn s) ->
  exists s' e,
    SendColors s colors = (s', Some e)
    /\ isActive s' = true
    /\ sequenceNum s' = sequenceNum s
    /\ area s' = area s
    /\ session_state s' = session_state s
    /\ sent (conn s') = sent (conn s).
Proof.
  intros Ha Hw. destruct (SendColors_fail s colors Ha Hw) as [e E].
  eexists _, e. split; [exact E|]. cbn [isActive sequenceNum area conn sent].
  split; [reflexivity|]. split; [reflexivity|]. split; [reflexivity|].
  split; [|reflexivity]. unfold session_state. cbn. now rewrite Ha.
Qed.

Lemma write_failure_returns_error_witness :
  isActive ex_stream_failing = true
  /\ write_fails (conn ex_stream_failing)
  /\ exists s' e,
       SendColors ex_stream_failing ex_colors = (s', Some e)
       /\ isActive s' = true
       /\ sequenceNum s' = sequenceNum ex_stream_failing
       /\ area s' = area ex_stream_failing
       /\ session_state s' = session_state ex_stream_failing
       /\ sent (conn s') = sent (conn ex_stream_failing).
Proof.
  split; [reflexivity|]. split; [reflexivity|].
  apply (write_failure_returns_error ex_stream_failing ex_colors); reflexivity.
Defined.

(** C4 as stated does not hold: after a failed write the flag is still set. *)
Lemma write_failure_keeps_stream_active :
  isActive ex_stream_failing = true
  /\ write_fails (conn ex_stream_failing)
  /\ (SendColors ex_stream_failing ex_colors).2 <> None
  /\ isActive (SendColors ex_stream_failing ex_colors).1 <> false.
Proof.
  split; [reflexivity|]. split; [reflexivity|]. split; [discriminate|].
  discriminate.
Qed.

(** C10.  Whenever [SendColors] returns an error, for an inactive stream or
    for a failed write, the sequence counter, the flag and the area are as
    before and nothing reached the wire: the session is as if the send had
    not been tried.  The counter changes only when the write succeeds. *)
Theorem failed_send_leaves_session
    (s s' : DTLSStream) (colors : gmap string RGB) (r : option string) :
  SendColors s colors = (s', r) ->
  (r <> None ->
     sequenceNum s' = sequenceNum s
     /\ session_state s' = session_state s
     /\ sent (conn s') = sent (conn s))
  /\ (sequenceNum s' <> sequenceNum s ->
        r = None
        /\ sent (conn s') = sent (conn s) ++ [buildStreamMessage s colors]).
Proof.
  intros H. destruct r as [e|].
  - destruct (SendColors_error _ _ _ _ H) as (Hst & Hsent). split.
    + intros _. split; [|auto]. unfold session_state in Hst. congruence.
    + intros Hne. destruct Hne. unfold session_state in Hst. congruence.
  - split; [intros Hr; now destruct Hr|].
    intros _. split; [reflexivity|].
    now apply SendColors_success in H as (_ & Hs & _).
Qed.

Lemma failed_send_leaves_session_witness :
  let s' := (SendColors ex_stream_failing ex_colors).1 in
  let r := (SendColors ex_stream_failing ex_colors).2 in
  SendColors ex_stream_failing ex_colors = (s', r)
  /\ r <> None
  /\ sequenceNum s' = sequenceNum ex_stream_failing
  /\ session_state s' = session_state ex_stream_failing
  /\ sent (conn s') = sent (conn ex_stream_failing).
Proof.
  intros s' r.
  assert (H : SendColors ex_stream_failing ex_colors = (s', r)) by reflexivity.
  split; [exact H|]. split; [discriminate|].
  apply (failed_send_leaves_session ex_stream_failing s' ex_colors r H).
  discriminate.
Defined.

(** ** Activation *)

Lemma count_opens_app (t u : list Event) :
  count_opens (t ++ u) = (count_opens t + count_opens u)%nat.
Proof. unfold count_opens. now rewrite List.filter_app, length_app. Qed.

(** The calls of an activation whose first opening fails, in order. *)
Lemma activation_trace
    (a : EntertainmentArea) (p : Z) (w : World) (e1 : string) :
  activation_accepted w ->
  head (opens w) = Some (Fail e1) ->
  exists rest,
    trace (StartWebSocketServer a p w).2
    = trace w ++ [EvActivate (ID a); EvOpen (ID a); EvDeactivate (ID a);
                  EvSleep 1000; EvOpen (ID a)] ++ rest
    /\ count_opens rest = 0%nat
    /\ forall e2, head (tail (opens w)) = Some (Fail e2) ->
         rest = [EvDeactivate (ID a)]
         /\ (StartWebSocketServer a p w).1
            = Some ("failed to create DTLS connection: " +:+ e2).
Proof.
  intros Hact Hopen.
  destruct w as [t acts os sv ck]. unfold activation_accepted in Hact.
  cbn [activations opens trace] in *.
  destruct os as [|[c1|e1'] os]; try discriminate. clear Hopen.
  assert (Hacts : match acts with Some e :: _ => False | _ => True end).
  { destruct acts as [|[e|] acts]; auto. exact (Hact e eq_refl). }
  destruct acts as [|[e|] acts]; [|destruct Hacts|];
    (destruct os as [|[c2|e2] os];
     [ destruct sv as [|es] | destruct sv as [|es] | ];
     eexists; (split; [cbv -[app]; rewrite <- ?app_assoc; cbn [app]; reflexivity|]);
     (split; [reflexivity|]);
     cbn [tail head]; intros e2' H2; try discriminate H2;
     injection H2 as <-; split; reflexivity).
Qed.

(** C5.  When the first opening of the session fails during activation, the
    server signals deactivation, pauses for a fixed delay and opens once
    more: two openings in all, whatever the second one gives.  If the second
    fails too, deactivation is signalled again, nothing else is done and an
    error is returned. *)
Theorem activation_retries_once
    (a : EntertainmentArea) (p : Z) (w : World) (e1 : string) :
  activation_accepted w ->
  head (opens w) = Some (Fail e1) ->
  exists rest,
    trace (StartWebSocketServer a p w).2
    = trace w ++ [EvActivate (ID a); EvOpen (ID a); EvDeactivate (ID a);
                  EvSleep 1000; EvOpen (ID a)] ++ rest
    /\ count_opens (trace (StartWebSocketServer a p w).2)
       = (count_opens (trace w) + 2)%nat
    /\ forall e2, head (tail (opens w)) = Some (Fail e2) ->
         rest = [EvDeactivate (ID a)]
         /\ (StartWebSocketServer a p w).1
            = Some ("failed to create DTLS connection: " +:+ e2).
Proof.
  intros Hact Hopen.
  destruct (activation_trace a p w e1 Hact Hopen) as (rest & Ht & Hc & Hfail).
  exists rest. split; [exact Ht|]. split; [|exact Hfail].
  rewrite Ht, !count_opens_app, Hc. cbn. lia.
Qed.

Lemma activation_retries_once_witness :
  activation_accepted ex_world
  /\ head (opens ex_world) = Some (Fail "DTLS handshake failed: timeout")
  /\ exists rest,
       trace (StartWebSocketServer ex_area 8080 ex_world).2
       = trace ex_world ++ [EvActivate "1"; EvOpen "1"; EvDeactivate "1";
                            EvSleep 1000; EvOpen "1"] ++ rest
       /\ count_opens (trace (StartWebSocketServer ex_area 8080 ex_world).2)
          = (count_opens (trace ex_world) + 2)%nat
       /\ forall e2, head (tail (opens ex_world)) = Some (Fail e2) ->
            rest = [EvDeactivate "1"]
            /\ (StartWebSocketServer ex_area 8080 ex_world).1
               = Some ("failed to create DTLS connection: " +:+ e2).
Proof.
  assert (Ha : activation_accepted ex_world) by (intros e; discriminate).
  split; [exact Ha|]. split; [reflexivity|].
  exact (activation_retries_once ex_area 8080 ex_world _ Ha eq_refl).
Defined.

(** ** The identifier field *)

Section ScanFacts.
Import Scan.

Lemma digit_no_space (a : ascii) :
  is_digit a = true ->
  (code a =? 10) = false
  /\ is_space1 a = false
  /\ (forall b, is_space2 a b = false)
  /\ (forall b c, is_space3 a b c = false).
Proof.
  unfold is_digit, is_space1, is_space2, is_space3.
  generalize (code a) as n. intros n Hd.
  apply andb_true_iff in Hd as [Hlo Hhi].
  apply Z.leb_le in Hlo. apply Z.leb_le in Hhi.
  assert (Hne : forall k, (k < 48 \/ 57 < k) -> (n =? k) = false)
    by (intros k Hk; apply Z.eqb_neq; lia).
  repeat split; intros; cbv zeta; rewrite ?Hne by lia; reflexivity.
Qed.

Lemma SkipSpace_digit (c : ascii) (r : string) :
  is_digit c = true -> SkipSpace (String c r) = Some (String c r).
Proof.
  intros Hd. destruct (digit_no_space c Hd) as (H10 & H1 & H2 & H3).
  cbn [SkipSpace]. rewrite H10, H1.
  destruct r as [|b [|d r]]; rewrite ?H2, ?H3; reflexivity.
Qed.

Lemma scanNumber_all_digits (s : string) :
  all_digits s = true -> scanNumber s = s.
Proof.
  induction s as [|c r IH]; cbn; [reflexivity|].
  intros H. apply andb_true_iff in H as [-> Hr]. now rewrite IH.
Qed.

Lemma all_digits_scanNumber (s : string) : all_digits (scanNumber s) = true.
Proof.
  induction s as [|c r IH]; cbn; [reflexivity|].
  destruct (is_digit c) eqn:Hc; cbn; [|reflexivity]. now rewrite Hc.
Qed.

Lemma decimal_from_nonneg (tok : string) (acc : Z) :
  all_digits tok = true -> 0 <= acc -> 0 <= decimal_from acc tok.
Proof.
  revert acc. induction tok as [|c r IH]; cbn; intros acc H Hacc; [exact Hacc|].
  apply andb_true_iff in H as [Hc Hr]. apply IH; [exact Hr|].
  unfold is_digit in Hc. apply andb_true_iff in Hc as [Hlo _].
  apply Z.leb_le in Hlo. unfold digit_val. lia.
Qed.

(** What [Sscanf] leaves in a [uint16] that was 0: the value of the
    leading run of digits, after the leading spaces, when it fits. *)
Lemma Sscanf_d_uint16_value (id : string) :
  Sscanf_d_uint16 id 0
  = match SkipSpace id with
    | None => 0
    | Some rest =>
        let v := decimal (scanNumber rest) in
        if v <? 65536 then v else 0
    end.
Proof.
  unfold Sscanf_d_uint16, scanUint, ParseUint.
  destruct (SkipSpace id) as [rest|]; [|reflexivity].
  destruct (scanNumber rest) as [|c tok] eqn:Htok; [reflexivity|].
  cbv zeta. change (2 ^ 64) with 18446744073709551616.
  change (2 ^ 16) with 65536.
  destruct (Z.ltb_spec (decimal (String c tok)) 18446744073709551616);
    destruct (Z.ltb_spec (decimal (String c tok)) 65536); try reflexivity; lia.
Qed.

Lemma Sscanf_d_uint16_range (id : string) : Int.is_uint16 (Sscanf_d_uint16 id 0).
Proof.
  rewrite Sscanf_d_uint16_value. unfold Int.is_uint16.
  destruct (SkipSpace id) as [rest|]; [|lia]. cbv zeta.
  pose proof (decimal_from_nonneg (scanNumber rest) 0
                (all_digits_scanNumber rest) (Z.le_refl 0)) as Hpos.
  fold (decimal (scanNumber rest)) in Hpos.
  destruct (Z.ltb_spec (decimal (scanNumber rest)) 65536); lia.
Qed.

Lemma Sscanf_d_uint16_numeric (id : string) :
  numeric id = true -> decimal id < 65536 -> Sscanf_d_uint16 id 0 = decimal id.
Proof.
  intros Hn Hv. rewrite Sscanf_d_uint16_value.
  destruct id as [|c r]; [discriminate|]. cbn [numeric] in Hn.
  pose proof Hn as Hall. cbn [all_digits] in Hn.
  apply andb_true_iff in Hn as [Hc _].
  rewrite (SkipSpace_digit c r Hc), (scanNumber_all_digits _ Hall). cbv zeta.
  now destruct (Z.ltb_spec (decimal (String c r)) 65536); [|lia].
Qed.

Lemma Sscanf_d_uint16_no_number (id : string) :
  starts_number id = false -> Sscanf_d_uint16 id 0 = 0.
Proof.
  unfold starts_number. intros H. rewrite Sscanf_d_uint16_value.
  destruct (SkipSpace id) as [[|c r]|]; [reflexivity | | reflexivity].
  cbn [scanNumber]. now rewrite H.
Qed.

End ScanFacts.

(** C9, as the code has it.  The two-byte big-endian identifier field of a
    light holds what [Sscanf] reads from the identifier with [%d]: the value
    of its leading run of decimal digits, leading spaces skipped, when that
    value is below 65536, and 0 otherwise.  So an identifier that is a
    decimal numeral below 65536 is written as its value, an identifier that
    does not begin with a digit yields 0, and the frame is built in full
    whatever the identifiers are. *)
Theorem light_id_field
    (s : DTLSStream) (colors : gmap string RGB) (i : nat) (id : string) :
  Lights (area s) !! i = Some id ->
  let n := Scan.Sscanf_d_uint16 id 0 in
  take 2 (drop 1 (Frame.record_at i (buildStreamMessage s colors))) = Int.be16 n
  /\ Frame.light_id (Frame.record_at i (buildStreamMessage s colors)) = n
  /\ n = match Scan.SkipSpace id with
         | None => 0
         | Some rest =>
             let v := Scan.decimal (Scan.scanNumber rest) in
             if v <? 65536 then v else 0
         end
  /\ (Scan.numeric id = true -> Scan.decimal id < 65536 -> n = Scan.decimal id)
  /\ (starts_number id = false -> n = 0)
  /\ length (buildStreamMessage s colors) = (16 + 9 * length (Lights (area s)))%nat.
Proof.
  intros Hi n. rewrite (record_at_light s colors i id Hi).
  destruct (light_record_fields colors id) as (_ & Hid & _).
  split; [exact Hid|]. split.
  { unfold Frame.light_id. rewrite Hid.
    apply of_be16_be16, Sscanf_d_uint16_range. }
  split; [apply Sscanf_d_uint16_value|].
  split; [apply Sscanf_d_uint16_numeric|].
  split; [apply Sscanf_d_uint16_no_number|].
  rewrite buildStreamMessage_layout, length_app, header_length, records_length.
  reflexivity.
Qed.

Lemma light_id_field_witness :
  Lights (area ex_stream) !! 0%nat = Some "5"
  /\ Frame.light_id (Frame.record_at 0 (buildStreamMessage ex_stream ex_colors)) = 5.
Proof.
  split; [reflexivity|].
  destruct (light_id_field ex_stream ex_colors 0 "5" eq_refl) as (_ & -> & _).
  reflexivity.
Defined.

(** C9 as stated does not hold: "5x" is not a numeral, and its field is 5. *)
Lemma non_numeric_id_not_zero :
  Lights (area ex_stream_5x) !! 0%nat = Some "5x"
  /\ Scan.numeric "5x" = false
  /\ Frame.light_id (Frame.record_at 0 (buildStreamMessage ex_stream_5x ∅)) = 5
  /\ take 2 (drop 1 (Frame.record_at 0 (buildStreamMessage ex_stream_5x ∅))) <> [0; 0].
Proof.
  split; [reflexivity|]. split; [reflexivity|]. split; [reflexivity|].
  vm_compute. discriminate.
Qed.

(** ** The keep-alive task *)

Section KeepAlive.

Lemma all_black_lookup (l : list string) (m : gmap string RGB) (k : string) :
  all_black l m !! k = if decide (k ∈ l) then Some (mkRGB 0 0 0) else m !! k.
Proof.
  revert m. induction l as [|x l IH]; intros m; cbn [all_black fold_left].
  - destruct (decide (k ∈ [])) as [H|_]; [|reflexivity].
    now apply elem_of_nil in H.
  - fold (all_black l (<[x:=mkRGB 0 0 0]> m)). rewrite IH.
    destruct (decide (k ∈ l)) as [Hl|Hl].
    + rewrite decide_True by (now right). reflexivity.
    + destruct (decide (k = x)) as [->|Hx].
      * rewrite decide_True by left. apply lookup_insert_eq.
      * rewrite decide_False by (rewrite elem_of_cons; tauto).
        now apply lookup_insert_ne.
Qed.

Lemma keepAlive_colors_cached (s : WebSocketServer) :
  lastColors s <> ∅ -> keepAlive_colors s = lastColors s.
Proof.
  intros Hne. unfold keepAlive_colors. cbv zeta.
  rewrite bool_decide_true; [reflexivity|].
  apply map_size_non_empty_iff in Hne. lia.
Qed.

Lemma keepAlive_colors_empty (s : WebSocketServer) :
  lastColors s = ∅ -> keepAlive_colors s = all_black (Lights (server_area s)) ∅.
Proof.
  intros He. unfold keepAlive_colors. cbv zeta. rewrite He.
  rewrite bool_decide_false; [reflexivity|].
  rewrite map_size_empty. lia.
Qed.

Lemma color_of_all_black (l : list string) (id : string) :
  color_of (all_black l ∅) id = mkRGB 0 0 0.
Proof.
  unfold color_of. rewrite all_black_lookup.
  destruct (decide (id ∈ l)); [reflexivity|]. now rewrite lookup_empty.
Qed.

Lemma light_record_color_of (c1 c2 : gmap string RGB) (id : string) :
  color_of c1 id = color_of c2 id -> light_record c1 id = light_record c2 id.
Proof.
  intros H. unfold light_record. fold (color_of c1 id). fold (color_of c2 id).
  now rewrite H.
Qed.

Lemma buildStreamMessage_color_of (st : DTLSStream) (c1 c2 : gmap string RGB) :
  (forall id, color_of c1 id = color_of c2 id) ->
  buildStreamMessage st c1 = buildStreamMessage st c2.
Proof.
  intros H. rewrite !buildStreamMessage_layout. f_equal.
  induction (Lights (area st)) as [|x l IH]; cbn [flat_map]; [reflexivity|].
  now rewrite IH, (light_record_color_of c1 c2 x (H x)).
Qed.

Lemma rgb_at_black (st : DTLSStream) (colors : gmap string RGB) (i : nat) (id : string) :
  Lights (area st) !! i = Some id ->
  color_of colors id = mkRGB 0 0 0 ->
  Frame.rgb_at i (buildStreamMessage st colors) = (0, 0, 0).
Proof.
  intros Hi Hc. unfold Frame.rgb_at, Frame.red, Frame.green, Frame.blue.
  rewrite (record_at_light st colors i id Hi).
  destruct (light_record_fields colors id) as (_ & _ & -> & -> & ->).
  now rewrite Hc.
Qed.

End KeepAlive.

(** C6.  A keep-alive tick on a live session writes one frame, built from
    the colours the keeper chose.  With an empty last-colours map these are
    (0,0,0) for every fixture of the area, and every record of the frame is
    black; with a non-empty one they are the last-colours map itself.  In
    both cases the frame is the encoding of the last-colours map, and the
    map is kept. *)
Theorem keepAlive_tick_resends
    (now : Z) (s : WebSocketServer) (st : DTLSStream) :
  dtlsStream s = Some st ->
  isActive st = true ->
  ~ write_fails (conn st) ->
  exists st',
    dtlsStream (keepAlive_tick now s) = Some st'
    /\ sent (conn st') = sent (conn st) ++ [buildStreamMessage st (keepAlive_colors s)]
    /\ (lastColors s = ∅ ->
          (forall id, id ∈ Lights (server_area s) ->
                      keepAlive_colors s !! id = Some (mkRGB 0 0 0))
          /\ (forall id, is_Some (keepAlive_colors s !! id) ->
                         id ∈ Lights (server_area s))
          /\ (forall i id, Lights (area st) !! i = Some id ->
                Frame.rgb_at i (buildStreamMessage st (keepAlive_colors s)) = (0, 0, 0)))
    /\ (lastColors s <> ∅ -> keepAlive_colors s = lastColors s)
    /\ buildStreamMessage st (keepAlive_colors s) = buildStreamMessage st (lastColors s)
    /\ lastColors (keepAlive_tick now s) = lastColors s.
Proof.
  intros Hst Ha Hw. unfold keepAlive_tick. rewrite Hst.
  rewrite (SendColors_ok st (keepAlive_colors s) Ha Hw).
  eexists. split; [reflexivity|]. split; [reflexivity|].
  split; [|split; [|split]].
  - intros He. rewrite (keepAlive_colors_empty s He). repeat split.
    + intros id Hid. rewrite all_black_lookup. now rewrite decide_True.
    + intros id [c Hc]. rewrite all_black_lookup in Hc.
      destruct (decide (id ∈ Lights (server_area s))); [assumption|].
      now rewrite lookup_empty in Hc.
    + intros i id Hi. apply (rgb_at_black st _ i id Hi), color_of_all_black.
  - apply keepAlive_colors_cached.
  - destruct (decide (lastColors s = ∅)) as [He|Hne].
    + rewrite (keepAlive_colors_empty s He), He.
      apply buildStreamMessage_color_of. intros id.
      rewrite color_of_all_black. unfold color_of. now rewrite lookup_empty.
    + now rewrite (keepAlive_colors_cached s Hne).
  - reflexivity.
Qed.

Lemma keepAlive_tick_resends_witness :
  dtlsStream ex_server = Some ex_stream
  /\ isActive ex_stream = true
  /\ ~ write_fails (conn ex_stream)
  /\ lastColors ex_server = ∅
  /\ exists st',
       dtlsStream (keepAlive_tick 5 ex_server) = Some st'
       /\ sent (conn st')
          = sent (conn ex_stream) ++ [buildStreamMessage ex_stream (keepAlive_colors ex_server)]
       /\ keepAlive_colors ex_server !! "5" = Some (mkRGB 0 0 0)
       /\ keepAlive_colors ex_server !! "6" = Some (mkRGB 0 0 0).
Proof.
  assert (Hw : ~ write_fails (conn ex_stream)) by discriminate.
  split; [reflexivity|]. split; [reflexivity|]. split; [exact Hw|].
  split; [reflexivity|].
  destruct (keepAlive_tick_resends 5 ex_server ex_stream eq_refl eq_refl Hw)
    as (st' & H1 & H2 & H3 & _).
  exists st'. split; [exact H1|]. split; [exact H2|].
  destruct (H3 eq_refl) as (Hblack & _).
  split; apply Hblack; cbn; [left | right; left].
Defined.

(** ** The streaming flag *)

Section Flag.

Lemma ws_leave_sound (p : nat) (b : Bridge) :
  is_Some (dtlsStream (server b)) -> flag_sound (ws_leave p b).
Proof. intros Hs. split; [discriminate | exact Hs]. Qed.

Lemma ws_enter_sound (p : nat) (b : Bridge) :
  flag_sound b -> flag_sound (ws_enter p b).
Proof.
  intros [_ Hs]. split; [|exact Hs].
  intros _. cbn. set_solver.
Qed.

Lemma ws_turn_sound (p : nat) (now : Z) (x : Inbound) (b : Bridge) :
  flag_sound b -> flag_sound (ws_turn p now x b).
Proof.
  intros [Hf Hs]. unfold ws_turn.
  destruct (ReadJSON x) as [msg|]; [|now apply ws_leave_sound].
  destruct Hs as [st Hst]. rewrite Hst.
  destruct (SendColors st _) as [st' [e|]].
  - apply ws_leave_sound. cbn. eauto.
  - split; cbn; [exact Hf | eauto].
Qed.

Lemma keepAlive_tick_fields (now : Z) (s : WebSocketServer) :
  isStreaming (keepAlive_tick now s) = isStreaming s
  /\ (is_Some (dtlsStream s) -> is_Some (dtlsStream (keepAlive_tick now s))).
Proof.
  unfold keepAlive_tick. destruct (dtlsStream s) as [st|] eqn:Hst.
  - destruct (SendColors st _) as [st' [e|]]; cbn; eauto.
  - rewrite Hst. auto.
Qed.

Lemma step_sound (b : Bridge) (e : Step) : flag_sound b -> flag_sound (step b e).
Proof.
  intros Hb. destruct e as [p|p now x|now]; cbn [step].
  - case_bool_decide; [exact Hb | now apply ws_enter_sound].
  - case_bool_decide; [now apply ws_turn_sound | exact Hb].
  - destruct Hb as [Hf Hs].
    destruct (keepAlive_tick_fields now (server b)) as [Hk1 Hk2].
    split; cbn; [rewrite Hk1; exact Hf | auto].
Qed.

Lemma run_sound (es : list Step) (b : Bridge) : flag_sound b -> flag_sound (run b es).
Proof.
  revert b. induction es as [|e es IH]; intros b Hb; [exact Hb|].
  cbn [run fold_left]. apply IH, step_sound, Hb.
Qed.

End Flag.

(** C7, as the code has it.  Whatever producers and keep-alive ticks did
    since serving began, a status answer with the streaming flag set means
    that some producer is inside its read loop, and once no producer is, the
    flag reads false. *)
Theorem streaming_only_with_a_producer
    (s0 : WebSocketServer) (es : list Step) (method : string) (status : Status) :
  isStreaming s0 = false ->
  is_Some (dtlsStream s0) ->
  handleStatus method (server (run (serve_start s0) es)) = Some status ->
  (streaming status = true -> reading (run (serve_start s0) es) <> ∅)
  /\ (reading (run (serve_start s0) es) = ∅ -> streaming status = false).
Proof.
  intros H0 Hs Hq.
  assert (Hinv : flag_sound (run (serve_start s0) es)).
  { apply run_sound. split; [cbn; congruence | exact Hs]. }
  destruct Hinv as [Hf _].
  unfold handleStatus in Hq. destruct (String.eqb method "OPTIONS"); [discriminate|].
  injection Hq as <-. cbn [streaming]. split; [exact Hf|].
  intros He.
  destruct (isStreaming (server (run (serve_start s0) es))) eqn:E; [|reflexivity].
  now destruct (Hf eq_refl).
Qed.

Lemma streaming_only_with_a_producer_witness :
  let b := run (serve_start ex_server) [Upgrade 1; Turn 1 4 ReadFailure] in
  isStreaming ex_server = false
  /\ is_Some (dtlsStream ex_server)
  /\ handleStatus "GET" (server b) = Some (mkStatus false "TV" ["5"; "6"] 8080)
  /\ (reading b = ∅ -> streaming (mkStatus false "TV" ["5"; "6"] 8080) = false).
Proof.
  intros b.
  assert (Hs : is_Some (dtlsStream ex_server)) by (eexists; reflexivity).
  assert (Hq : handleStatus "GET" (server b) = Some (mkStatus false "TV" ["5"; "6"] 8080))
    by reflexivity.
  split; [reflexivity|]. split; [exact Hs|]. split; [exact Hq|].
  apply (streaming_only_with_a_producer ex_server _ "GET" _ eq_refl Hs Hq).
Defined.

(** C7 as stated does not hold: of two producers inside their loops, the
    first to leave clears the flag while the second is still reading. *)
Lemma one_producer_leaving_clears_flag :
  let b := run (serve_start ex_server) [Upgrade 1; Upgrade 2; Turn 1 4 ReadFailure] in
  2%nat ∈ reading b
  /\ streaming <$> handleStatus "GET" (server b) = Some false.
Proof.
  intros b. split; [|reflexivity].
  apply (bool_decide_unpack _). vm_compute. exact I.
Qed.

(** ** Channel values of producer messages *)

Section Channels.

Lemma json_uint8_spec (n : Z) :
  (Int.is_uint8 n /\ json_uint8 n = Some n) \/ (~ Int.is_uint8 n /\ json_uint8 n = None).
Proof.
  unfold json_uint8, Int.is_uint8.
  destruct (Z.leb_spec 0 n); destruct (Z.leb_spec n 255); cbn;
    first [ left; split; [lia | reflexivity]
          | right; split; [lia | reflexivity] ].
Qed.

Lemma json_color_spec (c : JsonColor) :
  (in_range c /\ json_color c = Some (mkRGB (jr c) (jg c) (jb c)))
  \/ (~ in_range c /\ json_color c = None).
Proof.
  unfold json_color, in_range.
  destruct (json_uint8_spec (jr c)) as [[Hr ->]|[Hr ->]]; cbn; [|right; tauto].
  destruct (json_uint8_spec (jg c)) as [[Hg ->]|[Hg ->]]; cbn; [|right; tauto].
  destruct (json_uint8_spec (jb c)) as [[Hb ->]|[Hb ->]]; cbn; [|right; tauto].
  left. tauto.
Qed.

Lemma json_lights_spec (l : list (string * JsonColor)) (acc : gmap string RGB) :
  (Forall (fun kv => in_range kv.2) l /\ json_lights acc l = Some (as_written acc l))
  \/ (Exists (fun kv => ~ in_range kv.2) l /\ json_lights acc l = None).
Proof.
  revert acc. induction l as [|[k c] l IH]; intros acc; cbn [json_lights].
  - left. split; [constructor | reflexivity].
  - destruct (json_color_spec c) as [[Hc ->]|[Hc ->]].
    + destruct (IH (<[k:=mkRGB (jr c) (jg c) (jb c)]> acc)) as [[Hl E]|[Hl E]].
      * left. split; [now constructor | exact E].
      * right. split; [now apply Exists_cons_tl | exact E].
    + right. split; [now apply Exists_cons_hd | reflexivity].
Qed.

Lemma as_written_lookup (l : list (string * JsonColor)) (acc : gmap string RGB)
      (id : string) (c : RGB) :
  as_written acc l !! id = Some c ->
  acc !! id = Some c
  \/ exists jc, (id, jc) ∈ l /\ c = mkRGB (jr jc) (jg jc) (jb jc).
Proof.
  revert acc. induction l as [|[k jc] l IH]; intros acc H; cbn in H; [now left|].
  apply IH in H as [H|(jc' & Hin & ->)].
  - destruct (decide (k = id)) as [->|Hne].
    + rewrite lookup_insert_eq in H. injection H as <-.
      right. exists jc. split; [left | reflexivity].
    + rewrite lookup_insert_ne in H by exact Hne. now left.
  - right. exists jc'. split; [now right | reflexivity].
Qed.

Lemma copy_colors (m : gmap string RGB) :
  (fun color => mkRGB (R color) (G color) (B color)) <$> m = m.
Proof.
  apply map_eq. intros k. rewrite lookup_fmap.
  destruct (m !! k) as [[r g b]|]; reflexivity.
Qed.

End Channels.

(** C8, as the code has it.  A message with a channel outside 0-255 does
    not decode into the message type: [ReadJSON] returns an error, nothing
    is forwarded and the producer's loop ends.  A message whose channels
    are all within 0-255 decodes to exactly the written values, no channel
    being reduced, and these are what the handler hands to [SendColors] and
    caches. *)
Theorem out_of_range_channel_is_rejected
    (p : nat) (now : Z) (l : list (string * JsonColor)) (b : Bridge) :
  (Exists (fun kv => ~ in_range kv.2) l ->
     ReadJSON (JsonText l) = None
     /\ ws_turn p now (JsonText l) b = ws_leave p b
     /\ dtlsStream (server (ws_turn p now (JsonText l) b)) = dtlsStream (server b))
  /\ (Forall (fun kv => in_range kv.2) l ->
        ReadJSON (JsonText l) = Some (mkMessage (as_written ∅ l))
        /\ (forall id c, as_written ∅ l !! id = Some c ->
              RGB_ok c
              /\ exists jc, (id, jc) ∈ l /\ c = mkRGB (jr jc) (jg jc) (jb jc))
        /\ (forall st, dtlsStream (server b) = Some st ->
              isActive st = true -> ~ write_fails (conn st) ->
              exists st',
                dtlsStream (server (ws_turn p now (JsonText l) b)) = Some st'
                /\ sent (conn st') = sent (conn st) ++ [buildStreamMessage st (as_written ∅ l)]
                /\ lastColors (server (ws_turn p now (JsonText l) b)) = as_written ∅ l)).
Proof.
  split.
  - intros Hex.
    assert (E : ReadJSON (JsonText l) = None).
    { cbn [ReadJSON]. destruct (json_lights_spec l ∅) as [[Hall _]|[_ ->]]; [|reflexivity].
      exfalso. apply Exists_exists in Hex as (kv & Hin & Hkv).
      rewrite Forall_forall in Hall. exact (Hkv (Hall kv Hin)). }
    split; [exact E|]. unfold ws_turn. rewrite E. split; reflexivity.
  - intros Hall.
    assert (E : ReadJSON (JsonText l) = Some (mkMessage (as_written ∅ l))).
    { cbn [ReadJSON]. destruct (json_lights_spec l ∅) as [[_ ->]|[Hex _]]; [reflexivity|].
      exfalso. apply Exists_exists in Hex as (kv & Hin & Hkv).
      rewrite Forall_forall in Hall. exact (Hkv (Hall kv Hin)). }
    split; [exact E|]. split.
    + intros id c Hc. apply as_written_lookup in Hc as [Hc|(jc & Hin & ->)].
      { now rewrite lookup_empty in Hc. }
      split; [|eauto]. rewrite Forall_forall in Hall. exact (Hall (id, jc) Hin).
    + intros st Hst Ha Hw. unfold ws_turn. rewrite E. cbn [msg_Lights].
      rewrite copy_colors, Hst, (SendColors_ok st _ Ha Hw).
      eexists. repeat split.
Qed.

Lemma out_of_range_channel_is_rejected_witness :
  let l := [("5", mkJsonColor 300 0 0)] in
  let b := run (serve_start ex_server) [Upgrade 1] in
  Exists (fun kv => ~ in_range kv.2) l
  /\ ReadJSON (JsonText l) = None
  /\ ws_turn 1 4 (JsonText l) b = ws_leave 1 b
  /\ dtlsStream (server (ws_turn 1 4 (JsonText l) b)) = dtlsStream (server b).
Proof.
  intros l b.
  assert (Hex : Exists (fun kv => ~ in_range kv.2) l).
  { apply Exists_cons_hd. unfold in_range, Int.is_uint8. cbn. lia. }
  split; [exact Hex|].
  exact (proj1 (out_of_range_channel_is_rejected 1 4 l b) Hex).
Defined.

(** C8 as stated does not hold: the message with a red channel of 300 is
    not forwarded with 44 in its place; nothing is written and the producer
    is out of its loop. *)
Lemma channel_300_not_forwarded :
  let b := run (serve_start ex_server) [Upgrade 1] in
  let b' := step b (Turn 1 4 ex_message_300) in
  1%nat ∈ reading b
  /\ ReadJSON ex_message_300 = None
  /\ (sent ∘ conn) <$> dtlsStream (server b') = Some []
  /\ lastColors (server b') = ∅
  /\ 1%nat ∉ reading b'.
Proof.
  intros b b'. split; [apply (bool_decide_unpack _); vm_compute; exact I|].
  split; [reflexivity|]. split; [reflexivity|]. split; [reflexivity|].
  intros H. apply (bool_decide_pack _) in H. vm_compute in H. exact H.
Qed.

(** * Further properties *)

(** ** The frame as a function of the colours *)

Section FrameContent.

Lemma be16_range (v : Z) : Forall Int.is_uint8 (Int.be16 v).
Proof.
  rewrite be16_bytes. unfold Int.is_uint8.
  repeat constructor; apply Z.mod_pos_bound; lia.
Qed.

Lemma light_record_range (colors : gmap string RGB) (id : string) :
  Forall Int.is_uint8 (light_record colors id).
Proof.
  unfold light_record. cbv zeta. rewrite !Forall_app.
  repeat split; try apply be16_range.
  constructor; [unfold Int.is_uint8; lia | constructor].
Qed.

Lemma header_range (n : Z) : Int.is_uint8 n -> Forall Int.is_uint8 (header n).
Proof.
  intros Hn. unfold header. rewrite !Forall_app. repeat split.
  - change (string_bytes "HueStream") with [72; 117; 101; 83; 116; 114; 101; 97; 109].
    unfold Int.is_uint8. repeat (constructor; [lia|]). constructor.
  - unfold Int.is_uint8. repeat (constructor; [lia|]). constructor.
  - constructor; [exact Hn | constructor].
  - unfold Int.is_uint8. repeat (constructor; [lia|]). constructor.
  - unfold Int.is_uint8. repeat (constructor; [lia|]). constructor.
  - unfold Int.is_uint8. repeat (constructor; [lia|]). constructor.
Qed.

Lemma color_of_ok (colors : gmap string RGB) (id : string) :
  colors_ok colors -> RGB_ok (color_of colors id).
Proof.
  intros Hok. unfold color_of. destruct (colors !! id) as [c|] eqn:Hc.
  - exact (Hok id c Hc).
  - repeat split; cbn; lia.
Qed.

Lemma records_color_of (c1 c2 : gmap string RGB) (l : list string) :
  (forall id, id ∈ l -> color_of c1 id = color_of c2 id) ->
  flat_map (light_record c1) l = flat_map (light_record c2) l.
Proof.
  induction l as [|x l IH]; intros H; cbn [flat_map]; [reflexivity|].
  rewrite IH by (intros id Hid; apply H; now right).
  now rewrite (light_record_color_of c1 c2 x (H x ltac:(left))).
Qed.

Lemma shifted_channel_inj (x y : Z) :
  Int.is_uint8 x -> Int.is_uint8 y ->
  Int.be16 (Int.shl16 x 8) = Int.be16 (Int.shl16 y 8) -> x = y.
Proof.
  intros Hx Hy H. apply (f_equal Int.of_be16) in H.
  rewrite !channel_roundtrip, !shiftl_8 in H by assumption. lia.
Qed.

Lemma light_record_inj (c1 c2 : gmap string RGB) (id : string) :
  RGB_ok (color_of c1 id) -> RGB_ok (color_of c2 id) ->
  light_record c1 id = light_record c2 id ->
  color_of c1 id = color_of c2 id.
Proof.
  intros (Hr1 & Hg1 & Hb1) (Hr2 & Hg2 & Hb2) H.
  destruct (light_record_fields c1 id) as (_ & _ & R1 & G1 & B1).
  destruct (light_record_fields c2 id) as (_ & _ & R2 & G2 & B2).
  rewrite H in R1, G1, B1. rewrite R2 in R1. rewrite G2 in G1. rewrite B2 in B1.
  apply shifted_channel_inj in R1; [|assumption..].
  apply shifted_channel_inj in G1; [|assumption..].
  apply shifted_channel_inj in B1; [|assumption..].
  destruct (color_of c1 id), (color_of c2 id). cbn in *. congruence.
Qed.

End FrameContent.

(** X1.  Every element of a frame is a byte: with a sequence number that
    is a [uint8], all the values the encoder appends lie in 0-255, whatever
    the colour map holds. *)
Theorem frame_is_bytes (s : DTLSStream) (colors : gmap string RGB) :
  Int.is_uint8 (sequenceNum s) ->
  Forall Int.is_uint8 (buildStreamMessage s colors).
Proof.
  intros Hn. rewrite buildStreamMessage_layout. apply Forall_app. split.
  - now apply header_range.
  - induction (Lights (area s)) as [|x l IH]; cbn [flat_map]; [constructor|].
    apply Forall_app. split; [apply light_record_range | exact IH].
Qed.

Lemma frame_is_bytes_witness :
  Int.is_uint8 (sequenceNum ex_stream_255)
  /\ Forall Int.is_uint8 (buildStreamMessage ex_stream_255 ex_colors).
Proof.
  assert (H : Int.is_uint8 (sequenceNum ex_stream_255)) by (cbn; unfold Int.is_uint8; lia).
  split; [exact H|]. exact (frame_is_bytes ex_stream_255 ex_colors H).
Defined.

(** X2.  Two colour maps of [uint8] channels give the same frame exactly
    when they give every light of the area the same colour, a light that a
    map lacks counting as black.  The frame carries the colours of the
    area's lights without loss, and nothing else of the map. *)
Theorem frame_equal_iff_area_colours
    (s : DTLSStream) (c1 c2 : gmap string RGB) :
  colors_ok c1 -> colors_ok c2 ->
  (buildStreamMessage s c1 = buildStreamMessage s c2
   <-> forall id, id ∈ Lights (area s) -> color_of c1 id = color_of c2 id).
Proof.
  intros H1 H2. split.
  - intros E id Hid. apply list_elem_of_lookup_1 in Hid as [i Hi].
    apply light_record_inj; [now apply color_of_ok..|].
    rewrite <- (record_at_light s c1 i id Hi), <- (record_at_light s c2 i id Hi).
    now rewrite E.
  - intros H. rewrite !buildStreamMessage_layout. f_equal.
    now apply records_color_of.
Qed.

Lemma frame_equal_iff_area_colours_witness :
  colors_ok ex_colors
  /\ colors_ok (<["5" := mkRGB 255 0 0]> (<["6" := mkRGB 0 0 0]> ∅))
  /\ buildStreamMessage ex_stream ex_colors
     = buildStreamMessage ex_stream (<["5" := mkRGB 255 0 0]> (<["6" := mkRGB 0 0 0]> ∅)).
Proof.
  assert (H1 : colors_ok ex_colors).
  { intros id c H. unfold ex_colors in H.
    apply lookup_singleton_Some in H as [_ <-].
    repeat split; cbn; lia. }
  assert (H2 : colors_ok (<["5" := mkRGB 255 0 0]> (<["6" := mkRGB 0 0 0]> ∅))).
  { intros id c H. apply lookup_insert_Some in H as [[_ <-]|[_ H]].
    - repeat split; cbn; lia.
    - apply lookup_insert_Some in H as [[_ <-]|[_ H]].
      + repeat split; cbn; lia.
      + now rewrite lookup_empty in H. }
  split; [exact H1|]. split; [exact H2|].
  apply (frame_equal_iff_area_colours ex_stream _ _ H1 H2).
  intros id Hid. cbn in Hid.
  apply elem_of_cons in Hid as [->|Hid]; [reflexivity|].
  apply elem_of_cons in Hid as [->|Hid]; [reflexivity|].
  now apply elem_of_nil in Hid.
Defined.

(** X3.  A colour given for a light that is not in the session's area
    never reaches the wire: adding it to the map leaves the frame as it
    was. *)
Theorem colour_outside_area_is_dropped
    (s : DTLSStream) (colors : gmap string RGB) (id : string) (c : RGB) :
  id ∉ Lights (area s) ->
  buildStreamMessage s (<[id := c]> colors) = buildStreamMessage s colors.
Proof.
  intros Hid. rewrite !buildStreamMessage_layout. f_equal.
  apply records_color_of. intros k Hk. unfold color_of.
  rewrite lookup_insert_ne by (intros ->; exact (Hid Hk)). reflexivity.
Qed.

Lemma colour_outside_area_is_dropped_witness :
  ("9" ∉ Lights (area ex_stream))
  /\ buildStreamMessage ex_stream (<["9" := mkRGB 1 2 3]> ex_colors)
     = buildStreamMessage ex_stream ex_colors.
Proof.
  assert (H : "9" ∉ Lights (area ex_stream)).
  { cbn. intros H.
    apply elem_of_cons in H as [H|H]; [discriminate|].
    apply elem_of_cons in H as [H|H]; [discriminate|].
    now apply elem_of_nil in H. }
  split; [exact H|]. exact (colour_outside_area_is_dropped ex_stream ex_colors "9" _ H).
Defined.

(** X4.  An identifier that is a decimal numeral of 65536 or more is not
    reduced to sixteen bits: the scan reports an overflow, which the encoder
    ignores, and the identifier field is 0. *)
Theorem numeral_overflow_yields_zero
    (s : DTLSStream) (colors : gmap string RGB) (i : nat) (id : string) :
  Lights (area s) !! i = Some id ->
  Scan.numeric id = true ->
  65536 <= Scan.decimal id ->
  take 2 (drop 1 (Frame.record_at i (buildStreamMessage s colors))) = [0; 0].
Proof.
  intros Hi Hn Hv. rewrite (record_at_light s colors i id Hi).
  destruct (light_record_fields colors id) as (_ & -> & _).
  rewrite Sscanf_d_uint16_value.
  destruct id as [|c r]; [discriminate|]. cbn [Scan.numeric] in Hn.
  pose proof Hn as Hall. cbn [Scan.all_digits] in Hn.
  apply andb_true_iff in Hn as [Hc _].
  rewrite (SkipSpace_digit c r Hc), (scanNumber_all_digits _ Hall). cbv zeta.
  destruct (Z.ltb_spec (Scan.decimal (String c r)) 65536); [lia|reflexivity].
Qed.

Lemma numeral_overflow_yields_zero_witness :
  let s := mkStream (mkConn [] []) (mkArea "1" "TV" ["65536"]) 0 true in
  Lights (area s) !! 0%nat = Some "65536"
  /\ Scan.numeric "65536" = true
  /\ 65536 <= Scan.decimal "65536"
  /\ take 2 (drop 1 (Frame.record_at 0 (buildStreamMessage s ∅))) = [0; 0].
Proof.
  intros s.
  assert (Hv : 65536 <= Scan.decimal "65536") by (vm_compute; discriminate).
  split; [reflexivity|]. split; [reflexivity|]. split; [exact Hv|].
  exact (numeral_overflow_yields_zero s ∅ 0 "65536" eq_refl eq_refl Hv).
Defined.

(** ** The bridge over a whole run *)

Section BridgeRun.

Lemma SendColors_wire_sound
    (a : EntertainmentArea) (st st' : DTLSStream) (colors : gmap string RGB)
    (r : option string) :
  wire_sound a st -> SendColors st colors = (st', r) -> wire_sound a st'.
Proof.
  intros (Ha & Hn & Hf) H.
  destruct (SendColors_cases st colors)
    as [(_ & E) | [(_ & _ & e & E) | (_ & _ & E)]];
    rewrite E in H; injection H as <- <-.
  - split; [exact Ha|]. split; [exact Hn | exact Hf].
  - split; [exact Ha|]. split; [exact Hn | exact Hf].
  - split; [exact Ha|]. split.
    + cbn. rewrite length_app, Hn. cbn [length]. unfold Int.incr8, Int.uint8.
      rewrite Nat2Z.inj_add, Z.add_mod_idemp_l by lia. reflexivity.
    + cbn. intros k f Hk.
      apply lookup_app_Some in Hk as [Hk|[Hlen Hk]]; [now apply Hf|].
      destruct (k - length (sent (conn st)))%nat as [|j] eqn:Hj; [|discriminate].
      injection Hk as <-. split.
      * rewrite seq_byte_frame, Hn. f_equal. lia.
      * rewrite buildStreamMessage_layout, length_app, header_length,
          records_length, Ha. reflexivity.
Qed.

Lemma send_all_wire_sound
    (a : EntertainmentArea) (calls : list (gmap string RGB)) (st : DTLSStream) :
  wire_sound a st -> wire_sound a (send_all st calls).
Proof.
  revert st. induction calls as [|colors calls IH]; intros st Hw; [exact Hw|].
  cbn [send_all fold_left]. apply IH.
  apply (SendColors_wire_sound a st _ colors (SendColors st colors).2 Hw).
  now destruct (SendColors st colors).
Qed.

Lemma keepAlive_tick_config (now : Z) (s : WebSocketServer) :
  port (keepAlive_tick now s) = port s
  /\ server_area (keepAlive_tick now s) = server_area s
  /\ isStreaming (keepAlive_tick now s) = isStreaming s
  /\ lastColors (keepAlive_tick now s) = lastColors s.
Proof.
  unfold keepAlive_tick. destruct (dtlsStream s) as [st|]; [|auto].
  destruct (SendColors st _) as [st' [e|]]; auto.
Qed.

Lemma step_config (b : Bridge) (e : Step) :
  port (server (step b e)) = port (server b)
  /\ server_area (server (step b e)) = server_area (server b).
Proof.
  destruct e as [p|p now x|now]; cbn [step].
  - case_bool_decide; auto.
  - case_bool_decide; [|auto]. unfold ws_turn.
    destruct (ReadJSON x) as [msg|]; [|auto].
    destruct (dtlsStream (server b)) as [st|]; [|auto].
    destruct (SendColors st _) as [st' [e|]]; auto.
  - cbn. destruct (keepAlive_tick_config now (server b)) as (? & ? & _). auto.
Qed.

Lemma run_config (es : list Step) (b : Bridge) :
  port (server (run b es)) = port (server b)
  /\ server_area (server (run b es)) = server_area (server b).
Proof.
  revert b. induction es as [|e es IH]; intros b; [auto|].
  change (run b (e :: es)) with (run (step b e) es).
  destruct (IH (step b e)) as [-> ->]. apply step_config.
Qed.

Lemma step_silent (st : DTLSStream) (s0 : WebSocketServer) (b : Bridge) (e : Step) :
  isActive st = false -> silent st s0 b -> silent st s0 (step b e).
Proof.
  intros Hc (Hst & Hl & Ht). destruct e as [p|p now x|now]; cbn [step].
  - case_bool_decide; repeat split; auto.
  - case_bool_decide; [|repeat split; auto]. unfold ws_turn.
    destruct (ReadJSON x) as [msg|]; [|repeat split; auto].
    rewrite Hst, (SendColors_inactive st _ Hc). repeat split; auto.
  - unfold keepAlive_tick. cbn. rewrite Hst, (SendColors_inactive st _ Hc).
    repeat split; auto.
Qed.

Lemma run_silent (st : DTLSStream) (s0 : WebSocketServer) (es : list Step) (b : Bridge) :
  isActive st = false -> silent st s0 b -> silent st s0 (run b es).
Proof.
  intros Hc. revert b. induction es as [|e es IH]; intros b Hb; [exact Hb|].
  cbn [run fold_left]. apply IH, step_silent; assumption.
Qed.

End BridgeRun.

(** X5.  Calls of [SendColors] made one after the other on a stream that
    starts fresh, none beginning before the one before has returned: whichever
    of them fail, the frames on the wire are numbered 0, 1, 2, ... modulo 256
    in the order they were written, without a gap, every frame has the
    length the area's lights give it, and the counter is the number of
    frames written, modulo 256.  (The source takes no lock around
    [SendColors]; calls that overlap are outside this statement.) *)
Theorem sequential_sends_are_numbered
    (st0 : DTLSStream) (calls : list (gmap string RGB)) :
  sent (conn st0) = [] ->
  sequenceNum st0 = 0 ->
  area (send_all st0 calls) = area st0
  /\ sequenceNum (send_all st0 calls)
     = Z.of_nat (length (sent (conn (send_all st0 calls)))) mod 256
  /\ forall (k : nat) (f : list Z),
       sent (conn (send_all st0 calls)) !! k = Some f ->
       Frame.seq_byte f = Z.of_nat k mod 256
       /\ length f = (16 + 9 * length (Lights (area st0)))%nat.
Proof.
  intros Hs Hn.
  assert (H0 : wire_sound (area st0) st0).
  { split; [reflexivity|]. split.
    - now rewrite Hs, Hn.
    - intros k f Hk. now rewrite Hs in Hk. }
  exact (send_all_wire_sound (area st0) calls st0 H0).
Qed.

Lemma sequential_sends_are_numbered_witness :
  let st0 := mkStream (mkConn [] [false; true; false]) ex_area 0 true in
  let calls := [ex_colors; ∅; ex_colors; ∅] in
  sent (conn st0) = []
  /\ sequenceNum st0 = 0
  /\ length (sent (conn (send_all st0 calls))) = 3%nat
  /\ sequenceNum (send_all st0 calls) = 3
  /\ forall (k : nat) (f : list Z),
       sent (conn (send_all st0 calls)) !! k = Some f ->
       Frame.seq_byte f = Z.of_nat k mod 256
       /\ length f = (16 + 9 * length (Lights (area st0)))%nat.
Proof.
  intros st0 calls. split; [reflexivity|]. split; [reflexivity|].
  split; [reflexivity|]. split; [reflexivity|].
  exact (proj2 (proj2 (sequential_sends_are_numbered st0 calls eq_refl eq_refl))).
Defined.

(** X6.  Whatever has happened at the bridge, the status answer names the
    area, the lights and the port the server was started with; the
    preflight request gets no body. *)
Theorem status_reports_configuration
    (s0 : WebSocketServer) (es : list Step) (method : string) :
  handleStatus method (server (run (serve_start s0) es))
  = if String.eqb method "OPTIONS" then None
    else Some (mkStatus (isStreaming (server (run (serve_start s0) es)))
                        (Name (server_area s0)) (Lights (server_area s0)) (port s0)).
Proof.
  unfold handleStatus.
  destruct (run_config es (serve_start s0)) as [-> ->]. reflexivity.
Qed.

(** X7.  Once the session is closed nothing brings it back: over any run
    of the bridge the stream stays as it was, so no datagram is written, and
    neither the cached colours nor the time of the last message change. *)
Theorem closed_session_stays_silent
    (s0 : WebSocketServer) (st : DTLSStream) (es : list Step) :
  dtlsStream s0 = Some st ->
  isActive st = false ->
  dtlsStream (server (run (serve_start s0) es)) = Some st
  /\ lastColors (server (run (serve_start s0) es)) = lastColors s0
  /\ lastMessageTime (server (run (serve_start s0) es)) = lastMessageTime s0.
Proof.
  intros Hst Hc. apply (run_silent st s0 es (serve_start s0) Hc).
  repeat split. exact Hst.
Qed.

Lemma closed_session_stays_silent_witness :
  let s0 := mkServer 8080 (Some (Close ex_stream)) ex_area false 0 ∅ in
  let es := [Upgrade 1; Turn 1 3 (JsonText [("5", mkJsonColor 9 9 9)]); Tick 4] in
  dtlsStream s0 = Some (Close ex_stream)
  /\ isActive (Close ex_stream) = false
  /\ dtlsStream (server (run (serve_start s0) es)) = Some (Close ex_stream)
  /\ lastColors (server (run (serve_start s0) es)) = lastColors s0
  /\ lastMessageTime (server (run (serve_start s0) es)) = lastMessageTime s0.
Proof.
  intros s0 es. split; [reflexivity|]. split; [reflexivity|].
  exact (closed_session_stays_silent s0 (Close ex_stream) es eq_refl eq_refl).
Defined.

(** ** Producers and the keep-alive task together *)

Section Turns.

Lemma ReadJSON_in_range (l : list (string * JsonColor)) :
  message_in_range l -> ReadJSON (JsonText l) = Some (mkMessage (as_written ∅ l)).
Proof.
  intros Hall. cbn [ReadJSON].
  destruct (json_lights_spec l ∅) as [[_ ->]|[Hex _]]; [reflexivity|].
  exfalso. apply Exists_exists in Hex as (kv & Hin & Hkv).
  unfold message_in_range in Hall. rewrite Forall_forall in Hall.
  exact (Hkv (Hall kv Hin)).
Qed.

Lemma SendColors_send_fails (st : DTLSStream) (colors : gmap string RGB) :
  send_fails st ->
  exists st' e,
    SendColors st colors = (st', Some e)
    /\ sent (conn st') = sent (conn st)
    /\ session_state st' = session_state st.
Proof.
  intros Hf. destruct (SendColors_cases st colors)
    as [(_ & E) | [(_ & _ & e & E) | (Ha & Hw & _)]].
  - eexists _, _. split; [exact E|]. auto.
  - eexists _, e. split; [exact E|].
    pose proof (SendColors_error _ _ _ _ E). tauto.
  - destruct Hf as [Hf|Hf]; [congruence | contradiction].
Qed.

Lemma keepAlive_frame (st : DTLSStream) (s : WebSocketServer) :
  buildStreamMessage st (keepAlive_colors s) = buildStreamMessage st (lastColors s).
Proof.
  destruct (decide (lastColors s = ∅)) as [He|Hne].
  - rewrite (keepAlive_colors_empty s He), He.
    apply buildStreamMessage_color_of. intros id.
    rewrite color_of_all_black. unfold color_of. now rewrite lookup_empty.
  - now rewrite (keepAlive_colors_cached s Hne).
Qed.

End Turns.



(** X9.  When forwarding a producer's message fails, that producer gets
    the error as a reply and leaves its loop; every other producer stays in
    its loop, nothing is written, and the cached colours and the time of the
    last message are not touched. *)
Theorem send_failure_ends_one_producer
    (p : nat) (now : Z) (l : list (string * JsonColor))
    (b : Bridge) (st : DTLSStream) :
  message_in_range l ->
  dtlsStream (server b) = Some st ->
  send_fails st ->
  exists st' e,
    dtlsStream (server (ws_turn p now (JsonText l) b)) = Some st'
    /\ sent (conn st') = sent (conn st)
    /\ session_state st' = session_state st
    /\ replies (ws_turn p now (JsonText l) b) = replies b ++ [(p, e)]
    /\ reading (ws_turn p now (JsonText l) b) = reading b ∖ {[p]}
    /\ (forall q, q <> p -> q ∈ reading b -> q ∈ reading (ws_turn p now (JsonText l) b))
    /\ lastColors (server (ws_turn p now (JsonText l) b)) = lastColors (server b)
    /\ lastMessageTime (server (ws_turn p now (JsonText l) b)) = lastMessageTime (server b).
Proof.
  intros Hl Hst Hf. unfold ws_turn. rewrite (ReadJSON_in_range l Hl), Hst.
  cbn [msg_Lights]. rewrite copy_colors.
  destruct (SendColors_send_fails st (as_written ∅ l) Hf) as (st' & e & -> & Hs & Hss).
  exists st', e. cbn. repeat split; try assumption; try reflexivity.
  intros q Hq Hin. set_solver.
Qed.

Lemma send_failure_ends_one_producer_witness :
  let b := mkBridge (mkServer 8080 (Some ex_stream_failing) ex_area true 0 ∅) {[1%nat; 2%nat]} [] in
  let l := [("5", mkJsonColor 255 0 0)] in
  message_in_range l
  /\ send_fails ex_stream_failing
  /\ exists e, replies (ws_turn 1 3 (JsonText l) b) = [(1%nat, e)]
  /\ 2%nat ∈ reading (ws_turn 1 3 (JsonText l) b).
Proof.
  intros b l.
  assert (Hl : message_in_range l).
  { constructor; [|constructor]. unfold in_range, Int.is_uint8. cbn. lia. }
  assert (Hf : send_fails ex_stream_failing) by (right; reflexivity).
  split; [exact Hl|]. split; [exact Hf|].
  destruct (send_failure_ends_one_producer 1 3 l b ex_stream_failing Hl eq_refl Hf)
    as (st' & e & _ & _ & _ & Hr & _ & Hq & _).
  exists e. split; [exact Hr|].
  apply Hq; [discriminate|]. apply (bool_decide_unpack _). vm_compute. exact I.
Defined.

(** X10.  A keep-alive tick whose send fails changes nothing the bridge
    keeps: the session is neither closed nor replaced, nothing is written,
    and the flag, the cached colours and the time of the last message stay
    as they were. *)
Theorem failed_keep_alive_changes_nothing
    (now : Z) (s : WebSocketServer) (st : DTLSStream) :
  dtlsStream s = Some st ->
  send_fails st ->
  exists st',
    dtlsStream (keepAlive_tick now s) = Some st'
    /\ sent (conn st') = sent (conn st)
    /\ session_state st' = session_state st
    /\ lastMessageTime (keepAlive_tick now s) = lastMessageTime s
    /\ lastColors (keepAlive_tick now s) = lastColors s
    /\ isStreaming (keepAlive_tick now s) = isStreaming s.
Proof.
  intros Hst Hf. unfold keepAlive_tick. rewrite Hst.
  destruct (SendColors_send_fails st (keepAlive_colors s) Hf) as (st' & e & -> & Hs & Hss).
  exists st'. cbn. repeat split; assumption || reflexivity.
Qed.

Lemma failed_keep_alive_changes_nothing_witness :
  let s := mkServer 8080 (Some ex_stream_failing) ex_area true 5 ex_colors in
  dtlsStream s = Some ex_stream_failing
  /\ send_fails ex_stream_failing
  /\ exists st',
       dtlsStream (keepAlive_tick 9 s) = Some st'
       /\ sent (conn st') = sent (conn ex_stream_failing)
       /\ session_state st' = session_state ex_stream_failing
       /\ lastMessageTime (keepAlive_tick 9 s) = lastMessageTime s
       /\ lastColors (keepAlive_tick 9 s) = lastColors s
       /\ isStreaming (keepAlive_tick 9 s) = isStreaming s.
Proof.
  intros s.
  assert (Hf : send_fails ex_stream_failing) by (right; reflexivity).
  split; [reflexivity|]. split; [exact Hf|].
  exact (failed_keep_alive_changes_nothing 9 s ex_stream_failing eq_refl Hf).
Defined.

(** X11.  On an active session whose writes succeed the keep-alive task
    writes one frame per tick until the stop signal and none after it; every
    one of these frames carries the light records of the cached colours
    (black records when the cache is empty), and the cache is left as it
    was. *)
Theorem keepAlive_one_frame_per_tick
    (ts : list Z) (rest : list Signal) (s : WebSocketServer) (st : DTLSStream) :
  dtlsStream s = Some st ->
  isActive st = true ->
  faults (conn st) = [] ->
  exists st' frames,
    dtlsStream (keepAlive (map TickerC ts ++ StopChan :: rest) s) = Some st'
    /\ sent (conn st') = sent (conn st) ++ frames
    /\ length frames = length ts
    /\ Forall (fun f => drop 16 f = flat_map (light_record (lastColors s)) (Lights (area st)))
              frames
    /\ lastColors (keepAlive (map TickerC ts ++ StopChan :: rest) s) = lastColors s.
Proof.
  revert s st. induction ts as [|t ts IH]; intros s st Hst Ha Hf.
  - exists st, []. cbn. rewrite app_nil_r. repeat split; auto.
  - cbn [map app keepAlive].
    assert (Hw : ~ write_fails (conn st)) by (unfold write_fails; now rewrite Hf).
    set (st1 := mkStream (mkConn (sent (conn st) ++ [buildStreamMessage st (keepAlive_colors s)]) [])
                         (area st) (Int.incr8 (sequenceNum st)) true).
    assert (E : keepAlive_tick t s = with_last (with_stream s st1) t (lastColors s)).
    { unfold keepAlive_tick. rewrite Hst, (SendColors_ok st _ Ha Hw), Hf. reflexivity. }
    rewrite E.
    destruct (IH (with_last (with_stream s st1) t (lastColors s)) st1 eq_refl eq_refl eq_refl)
      as (st' & frames & H1 & H2 & H3 & H4 & H5).
    exists st', (buildStreamMessage st (keepAlive_colors s) :: frames).
    split; [exact H1|]. split.
    { rewrite H2. subst st1. cbn [conn sent]. now rewrite <- app_assoc. }
    split; [cbn; now rewrite H3|]. split; [|exact H5].
    constructor; [|exact H4].
    rewrite keepAlive_frame, buildStreamMessage_layout.
    now rewrite drop_app_length' by reflexivity.
Qed.

Lemma keepAlive_one_frame_per_tick_witness :
  exists st' frames,
    dtlsStream (keepAlive (map TickerC [5; 10] ++ StopChan :: [TickerC 15]) ex_server) = Some st'
    /\ sent (conn st') = sent (conn ex_stream) ++ frames
    /\ length frames = 2%nat.
Proof.
  destruct (keepAlive_one_frame_per_tick [5; 10] [TickerC 15] ex_server ex_stream
              eq_refl eq_refl eq_refl)
    as (st' & frames & H1 & H2 & H3 & _).
  exists st', frames. auto.
Defined.

(** ** One producer on a healthy session *)

Section ProducerAlone.

Lemma read_loop_forwards (p : nat) (msgs : list (Z * list (string * JsonColor))) :
  Forall (fun m => message_in_range m.2) msgs ->
  forall (b : Bridge) (st : DTLSStream),
    p ∈ reading b ->
    dtlsStream (server b) = Some st ->
    isActive st = true ->
    faults (conn st) = [] ->
    exists st' frames,
      dtlsStream (server (read_loop p (as_inbound msgs) b)) = Some st'
      /\ sent (conn st') = sent (conn st) ++ frames
      /\ map (drop 16) frames = map (fun m => records_of (area st) m.2) msgs
      /\ p ∈ reading (read_loop p (as_inbound msgs) b)
      /\ isStreaming (server (read_loop p (as_inbound msgs) b)) = isStreaming (server b)
      /\ lastColors (server (read_loop p (as_inbound msgs) b))
         = match last msgs with
           | Some m => as_written ∅ m.2
           | None => lastColors (server b)
           end.
Proof.
  induction 1 as [|[t l] msgs Hl _ IH]; intros b st Hp Hst Ha Hf.
  - exists st, []. cbn. rewrite app_nil_r. repeat split; assumption || reflexivity.
  - cbn [as_inbound map read_loop fst snd]. cbn [snd] in Hl.
    assert (Hw : ~ write_fails (conn st)) by (unfold write_fails; now rewrite Hf).
    set (st1 := mkStream (mkConn (sent (conn st) ++ [buildStreamMessage st (as_written ∅ l)]) [])
                         (area st) (Int.incr8 (sequenceNum st)) true).
    set (b1 := mkBridge (with_last (with_stream (server b) st1) t (as_written ∅ l))
                        (reading b) (replies b)).
    assert (E : ws_turn p t (JsonText l) b = b1).
    { unfold ws_turn. rewrite (ReadJSON_in_range l Hl). cbn [msg_Lights].
      rewrite copy_colors, Hst, (SendColors_ok st _ Ha Hw), Hf. reflexivity. }
    rewrite E. change (reading b1) with (reading b).
    rewrite bool_decide_true by exact Hp.
    destruct (IH b1 st1 Hp eq_refl eq_refl eq_refl)
      as (st' & frames & H1 & H2 & H3 & H4 & H5 & H6).
    fold (as_inbound msgs).
    exists st', (buildStreamMessage st (as_written ∅ l) :: frames).
    split; [exact H1|]. split; [rewrite H2; cbn; now rewrite <- app_assoc|].
    split.
    { cbn [map area] in *. rewrite H3. f_equal.
      rewrite buildStreamMessage_layout.
      now rewrite drop_app_length' by reflexivity. }
    split; [exact H4|]. split; [exact H5|].
    rewrite H6, last_cons. cbn. now destruct (last msgs).
Qed.

End ProducerAlone.

(** X12.  A producer alone on an active session whose writes succeed: for
    messages with channels within 0-255 the handler writes one frame per
    message, in the order received, each carrying the colours of its
    message; the producer is still in its loop, the flag is set, and the
    colours cached are those of the last message. *)
Theorem producer_alone_one_frame_per_message
    (p : nat) (msgs : list (Z * list (string * JsonColor)))
    (b : Bridge) (st : DTLSStream) :
  Forall (fun m => message_in_range m.2) msgs ->
  dtlsStream (server b) = Some st ->
  isActive st = true ->
  faults (conn st) = [] ->
  exists st' frames,
    dtlsStream (server (handleWebSocket true p (as_inbound msgs) b)) = Some st'
    /\ sent (conn st') = sent (conn st) ++ frames
    /\ map (drop 16) frames = map (fun m => records_of (area st) m.2) msgs
    /\ p ∈ reading (handleWebSocket true p (as_inbound msgs) b)
    /\ isStreaming (server (handleWebSocket true p (as_inbound msgs) b)) = true
    /\ lastColors (server (handleWebSocket true p (as_inbound msgs) b))
       = match last msgs with
         | Some m => as_written ∅ m.2
         | None => lastColors (server b)
         end.
Proof.
  intros Hm Hst Ha Hf. unfold handleWebSocket.
  assert (Hp : p ∈ reading (ws_enter p b)) by (cbn; set_solver).
  destruct (read_loop_forwards p msgs Hm (ws_enter p b) st Hp Hst Ha Hf)
    as (st' & frames & H1 & H2 & H3 & H4 & H5 & H6).
  exists st', frames.
  split; [exact H1|]. split; [exact H2|]. split; [exact H3|].
  split; [exact H4|]. split; [exact H5 | exact H6].
Qed.

Lemma producer_alone_one_frame_per_message_witness :
  let msgs := [(1, [("5", mkJsonColor 255 0 0)]); (2, [("6", mkJsonColor 0 0 255)])] in
  let b := serve_start ex_server in
  Forall (fun m => message_in_range m.2) msgs
  /\ exists st' frames,
       dtlsStream (server (handleWebSocket true 1 (as_inbound msgs) b)) = Some st'
       /\ sent (conn st') = sent (conn ex_stream) ++ frames
       /\ map (drop 16) frames = map (fun m => records_of (area ex_stream) m.2) msgs.
Proof.
  intros msgs b.
  assert (Hm : Forall (fun m => message_in_range m.2) msgs).
  { repeat constructor; unfold Int.is_uint8; cbn; lia. }
  split; [exact Hm|].
  destruct (producer_alone_one_frame_per_message 1 msgs b ex_stream Hm eq_refl eq_refl eq_refl)
    as (st' & frames & H1 & H2 & H3 & _).
  exists st', frames. auto.
Defined.

(** ** Activation, the other paths *)

Section ActivationPaths.

Lemma new_events_of (a : EntertainmentArea) (p : Z) (w : World) (l : list Event) :
  trace (StartWebSocketServer a p w).2 = trace w ++ l -> new_events a p w = l.
Proof. intros H. unfold new_events. rewrite H. apply drop_app_length. Qed.

End ActivationPaths.

(** Computes the trace of an activation once the scripts are known. *)
Ltac activation_trace_tac :=
  cbv -[app]; rewrite <- ?app_assoc; cbn [app]; reflexivity.

(** X13.  When the control plane refuses the activation, the server
    returns that error at once: no session is opened, nothing is
    deactivated and nothing is served. *)
Theorem activation_refused
    (a : EntertainmentArea) (p : Z) (w : World) (e : string) :
  head (activations w) = Some (Some e) ->
  (StartWebSocketServer a p w).1 = Some ("failed to activate streaming: " +:+ e)
  /\ trace (StartWebSocketServer a p w).2 = trace w ++ [EvActivate (ID a)].
Proof.
  intros H. destruct w as [t acts os sv ck]. cbn [activations] in H.
  destruct acts as [|[e'|] acts]; try discriminate.
  injection H as ->. split; reflexivity.
Qed.

Lemma activation_refused_witness :
  let w := mkWorld [] [Some "unauthorized - link button press required"] [] ServerClosed 0 in
  head (activations w) = Some (Some "unauthorized - link button press required")
  /\ (StartWebSocketServer ex_area 8080 w).1
     = Some ("failed to activate streaming: " +:+ "unauthorized - link button press required")
  /\ trace (StartWebSocketServer ex_area 8080 w).2 = trace w ++ [EvActivate (ID ex_area)].
Proof.
  intros w. split; [reflexivity|].
  exact (activation_refused ex_area 8080 w _ eq_refl).
Defined.

(** X14.  When the session opens at the first attempt there is no
    deactivation, no pause and no second opening: the keep-alive task is
    started and the server serves.  The clean-up (stop the keep-alive task,
    close the session, deactivate) runs exactly when serving ends with an
    error other than the server being closed, and that error is returned. *)
Theorem first_opening_succeeds
    (a : EntertainmentArea) (p : Z) (w : World) :
  activation_accepted w ->
  (forall e, head (opens w) <> Some (Fail e)) ->
  exists st,
    sequenceNum st = 0 /\ isActive st = true /\ area st = a
    /\ trace (StartWebSocketServer a p w).2
       = trace w
         ++ [EvActivate (ID a); EvOpen (ID a); EvKeepAlive;
             EvServe (mkServer p (Some st) a false (clock w) ∅)]
         ++ match serving w with
            | ServerClosed => []
            | ServeError _ => [EvStop; EvClose; EvDeactivate (ID a)]
            end
    /\ (StartWebSocketServer a p w).1
       = match serving w with
         | ServerClosed => None
         | ServeError e => Some e
         end.
Proof.
  intros Hact Hopen. destruct w as [t acts os sv ck].
  unfold activation_accepted in Hact. cbn [activations opens trace serving clock] in *.
  assert (Hacts : match acts with Some e :: _ => False | _ => True end).
  { destruct acts as [|[e|] acts]; auto. exact (Hact e eq_refl). }
  assert (Hos : match os with Fail e :: _ => False | _ => True end).
  { destruct os as [|[c|e] os]; auto. exact (Hopen e eq_refl). }
  destruct acts as [|[e|] acts]; [|destruct Hacts|];
    (destruct os as [|[c|e1] os];
     [ exists (mkStream (mkConn [] []) a 0 true)
     | exists (mkStream c a 0 true)
     | destruct Hos ]);
    destruct sv as [|es];
    (split; [reflexivity|]); (split; [reflexivity|]); (split; [reflexivity|]);
    (split; [activation_trace_tac | reflexivity]).
Qed.

Lemma first_opening_succeeds_witness :
  let w := mkWorld [] [] [] (ServeError "listen tcp :8080: bind: address already in use") 3 in
  activation_accepted w
  /\ (forall e, head (opens w) <> Some (Fail e))
  /\ exists st,
       trace (StartWebSocketServer ex_area 8080 w).2
       = [EvActivate "1"; EvOpen "1"; EvKeepAlive;
          EvServe (mkServer 8080 (Some st) ex_area false 3 ∅);
          EvStop; EvClose; EvDeactivate "1"]
       /\ (StartWebSocketServer ex_area 8080 w).1
          = Some "listen tcp :8080: bind: address already in use".
Proof.
  intros w.
  assert (Ha : activation_accepted w) by (intros e; discriminate).
  assert (Ho : forall e, head (opens w) <> Some (Fail e)) by (intros e; discriminate).
  split; [exact Ha|]. split; [exact Ho|].
  destruct (first_opening_succeeds ex_area 8080 w Ha Ho) as (st & _ & _ & _ & Ht & Hr).
  exists st. split; [exact Ht | exact Hr].
Defined.

(** X15.  On every path, serving starts at most with what the code built:
    a server on the given port and area, with the flag cleared and no
    cached colours, holding a session that is open, active, numbered from 0
    and bound to the same area. *)
Theorem served_with_fresh_session
    (a : EntertainmentArea) (p : Z) (w : World) (srv : WebSocketServer) :
  EvServe srv ∈ new_events a p w ->
  port srv = p
  /\ server_area srv = a
  /\ isStreaming srv = false
  /\ lastColors srv = ∅
  /\ exists st,
       dtlsStream srv = Some st
       /\ sequenceNum st = 0 /\ isActive st = true /\ area st = a.
Proof.
  destruct w as [t acts os sv ck].
  destruct acts as [|[e|] acts];
    (destruct os as [|[c1|e1] [|[c2|e2] os]]);
    destruct sv as [|es];
    (erewrite new_events_of by activation_trace_tac);
    intros H;
    repeat (apply elem_of_cons in H as [H|H]; try discriminate H);
    try (now apply elem_of_nil in H);
    injection H as ->; repeat split; eexists; repeat split.
Qed.

Lemma served_with_fresh_session_witness :
  let w := mkWorld [] [] [Fail "DTLS handshake failed: timeout"] ServerClosed 3 in
  exists srv,
    EvServe srv ∈ new_events ex_area 8080 w
    /\ isStreaming srv = false
    /\ lastColors srv = ∅.
Proof.
  intros w.
  exists (mkServer 8080 (Some (mkStream (mkConn [] []) ex_area 0 true)) ex_area false 3 ∅).
  assert (H : EvServe (mkServer 8080 (Some (mkStream (mkConn [] []) ex_area 0 true)) ex_area false 3 ∅)
              ∈ new_events ex_area 8080 w).
  { rewrite (new_events_of ex_area 8080 w
               [EvActivate "1"; EvOpen "1"; EvDeactivate "1"; EvSleep 1000; EvOpen "1";
                EvKeepAlive;
                EvServe (mkServer 8080 (Some (mkStream (mkConn [] []) ex_area 0 true)) ex_area false 3 ∅)])
      by reflexivity.
    do 6 right. left. }
  split; [exact H|].
  destruct (served_with_fresh_session ex_area 8080 w _ H) as (_ & _ & H1 & H2 & _).
  split; [exact H1 | exact H2].
Defined.

(** ** The effects *)

Section EffectFacts.

Variable hsvToRGB : Z -> RGB.
Variable pulse_intensity : nat -> Z.
Variable wave_color : Z -> nat -> nat -> RGB.

Lemma seconds_exact (d : Z) :
  -9223372036 <= d <= 9223372036 -> seconds d = d * 1000000000.
Proof.
  intros Hd. unfold seconds, wrap64.
  change (2 ^ 63) with 9223372036854775808.
  change (2 ^ 64) with 18446744073709551616.
  rewrite Z.mod_small by lia. lia.
Qed.

Lemma known_effect_cases (name : string) :
  known_effect name = true ->
  name = "rainbow" \/ name = "pulse" \/ name = "wave" \/ name = "random".
Proof.
  unfold known_effect. rewrite !orb_true_iff, !String.eqb_eq. tauto.
Qed.

Lemma rainbow_loop_no_time (since : list Z) (dur hue : Z) (s : DTLSStream) :
  dur <= 0 -> Forall (fun t => 0 <= t) since ->
  rainbow_loop hsvToRGB since dur hue s = (s, None).
Proof.
  intros Hd Hs. destruct Hs as [|t since Ht _]; cbn; [reflexivity|].
  now destruct (Z.ltb_spec t dur); [lia|].
Qed.

Lemma pulse_loop_no_time (since : list Z) (dur : Z) (k : nat) (s : DTLSStream) :
  dur <= 0 -> Forall (fun t => 0 <= t) since ->
  pulse_loop pulse_intensity since dur k s = (s, None).
Proof.
  intros Hd Hs. destruct Hs as [|t since Ht _]; cbn; [reflexivity|].
  now destruct (Z.ltb_spec t dur); [lia|].
Qed.

Lemma wave_loop_no_time (since : list Z) (dur offset : Z) (s : DTLSStream) :
  dur <= 0 -> Forall (fun t => 0 <= t) since ->
  wave_loop wave_color since dur offset s = (s, None).
Proof.
  intros Hd Hs. destruct Hs as [|t since Ht _]; cbn; [reflexivity|].
  now destruct (Z.ltb_spec t dur); [lia|].
Qed.

Lemma random_loop_no_time (since nanos : list Z) (dur : Z) (s : DTLSStream) :
  dur <= 0 -> Forall (fun t => 0 <= t) since ->
  random_loop hsvToRGB since nanos dur s = (s, None).
Proof.
  intros Hd Hs. destruct Hs as [|t since Ht _]; cbn; [reflexivity|].
  now destruct (Z.ltb_spec t dur); [lia|].
Qed.

(** The first tick of each loop on a session whose send fails. *)
Lemma first_send_fails (colors : gmap string RGB) (s : DTLSStream)
      (k : DTLSStream -> DTLSStream * option string) :
  send_fails s ->
  exists s' e,
    (let (s1, err) := SendColors s colors in
     match err with
     | Some e => (s1, Some e)
     | None => k s1
     end) = (s', Some e)
    /\ sent (conn s') = sent (conn s)
    /\ session_state s' = session_state s.
Proof.
  intros Hf. destruct (SendColors_send_fails s colors Hf) as (s' & e & -> & H1 & H2).
  exists s', e. auto.
Qed.

Lemma rainbow_colors_lookup (lights : list string) (hue : Z) (id : string) :
  id ∈ lights -> rainbow_colors hsvToRGB lights hue !! id = Some (hsvToRGB hue).
Proof.
  unfold rainbow_colors. generalize (∅ : gmap string RGB).
  induction lights as [|x l IH]; intros m Hid; [now apply elem_of_nil in Hid|].
  cbn [fold_left]. destruct (decide (id ∈ l)) as [Hl|Hl]; [now apply IH|].
  apply elem_of_cons in Hid as [->|Hid]; [|contradiction].
  clear IH. revert m. induction l as [|y l IH]; intros m; cbn [fold_left].
  - apply lookup_insert_eq.
  - rewrite insert_insert_ne.
    + apply IH. intros H. apply Hl. now right.
    + intros ->. apply Hl. left.
Qed.

Lemma rgb_at_color_of (st : DTLSStream) (colors : gmap string RGB) (i : nat) (id : string) :
  Lights (area st) !! i = Some id ->
  RGB_ok (color_of colors id) ->
  Frame.rgb_at i (buildStreamMessage st colors)
  = (Z.shiftl (R (color_of colors id)) 8,
     Z.shiftl (G (color_of colors id)) 8,
     Z.shiftl (B (color_of colors id)) 8).
Proof.
  intros Hi (Hr & Hg & Hb). unfold Frame.rgb_at, Frame.red, Frame.green, Frame.blue.
  rewrite (record_at_light st colors i id Hi).
  destruct (light_record_fields colors id) as (_ & _ & -> & -> & ->).
  now rewrite !channel_roundtrip.
Qed.

Lemma next_hue (j : Z) :
  0 <= j ->
  (if 360 <=? (2 * j) mod 360 + 2 then 0 else (2 * j) mod 360 + 2)
  = (2 * (j + 1)) mod 360.
Proof.
  intros Hj.
  pose proof (Z.div_mod (2 * j) 360 ltac:(lia)) as E.
  pose proof (Z.mod_pos_bound (2 * j) 360 ltac:(lia)) as B.
  set (r := (2 * j) mod 360) in *. set (q := (2 * j) / 360) in *.
  destruct (Z.leb_spec 360 (r + 2)).
  - apply (Z.mod_unique _ _ (q + 1)); lia.
  - apply (Z.mod_unique _ _ q); lia.
Qed.

Lemma rainbow_loop_frames (pre rest : list Z) (dur : Z) :
  Forall (fun t => t < dur) pre ->
  match rest with [] => True | t :: _ => dur <= t end ->
  forall (j : Z) (s : DTLSStream),
    0 <= j ->
    isActive s = true ->
    faults (conn s) = [] ->
    exists s' frames,
      rainbow_loop hsvToRGB (pre ++ rest) dur ((2 * j) mod 360) s = (s', None)
      /\ sent (conn s') = sent (conn s) ++ frames
      /\ length frames = length pre
      /\ area s' = area s
      /\ forall (k : nat) (f : list Z),
           frames !! k = Some f ->
           exists sk,
             area sk = area s
             /\ f = buildStreamMessage sk
                      (rainbow_colors hsvToRGB (Lights (area s))
                                      ((2 * (j + Z.of_nat k)) mod 360)).
Proof.
  intros Hpre Hrest. induction Hpre as [|t pre Ht _ IH]; intros j s Hj Ha Hf.
  - exists s, []. cbn [app length]. rewrite app_nil_r.
    split.
    { destruct rest as [|t rest]; cbn; [reflexivity|].
      now destruct (Z.ltb_spec t dur); [lia|]. }
    repeat split. intros k f Hk. discriminate.
  - cbn [app rainbow_loop]. destruct (Z.ltb_spec t dur); [|lia].
    assert (Hw : ~ write_fails (conn s)) by (unfold write_fails; now rewrite Hf).
    cbv zeta. rewrite (SendColors_ok s _ Ha Hw), Hf. cbn [tail].
    rewrite (next_hue j Hj).
    set (s1 := mkStream _ (area s) _ true).
    destruct (IH (j + 1) s1 ltac:(lia) eq_refl eq_refl)
      as (s' & frames & E & Hs & Hl & Har & Hfr).
    exists s', (buildStreamMessage s (rainbow_colors hsvToRGB (Lights (area s)) ((2 * j) mod 360)) :: frames).
    split; [exact E|]. split.
    { rewrite Hs. subst s1. cbn [conn sent]. now rewrite <- app_assoc. }
    split; [cbn; now rewrite Hl|]. split; [exact Har|].
    intros [|k] f Hk; cbn in Hk.
    + injection Hk as <-. exists s. split; [reflexivity|].
      now replace (j + Z.of_nat 0) with j by lia.
    + destruct (Hfr k f Hk) as (sk & Hsk & ->). exists sk. split; [exact Hsk|].
      do 3 f_equal. lia.
Qed.

End EffectFacts.

(** X16.  An effect with nothing to do leaves the session as it is.  An
    unknown effect name is an error and nothing is sent.  A known effect
    whose duration, the 64-bit product of [durationSec] and [time.Second],
    is zero or negative returns without an error and without a single
    frame; the product is [durationSec] times ten to the ninth, hence zero
    or negative, for [durationSec] from -9223372036 to 0, and it wraps to a
    positive duration just below that. *)
Theorem effect_with_nothing_to_do
    (hsvToRGB : Z -> RGB) (pulse_intensity : nat -> Z) (wave_color : Z -> nat -> nat -> RGB)
    (effectName : string) (durationSec : Z) (since nanos : list Z) (s : DTLSStream) :
  (known_effect effectName = false ->
     StreamEffect hsvToRGB pulse_intensity wave_color effectName durationSec since nanos s
     = (s, Some ("unknown effect: " +:+ effectName)))
  /\ (known_effect effectName = true ->
      seconds durationSec <= 0 ->
      Forall (fun t => 0 <= t) since ->
      StreamEffect hsvToRGB pulse_intensity wave_color effectName durationSec since nanos s
      = (s, None))
  /\ (-9223372036 <= durationSec <= 0 ->
      seconds durationSec = durationSec * 1000000000)
  /\ (-18446744073 <= durationSec < -9223372036 ->
      seconds durationSec = durationSec * 1000000000 + 2 ^ 64
      /\ 0 < seconds durationSec).
Proof.
  split; [|split; [|split]].
  - unfold known_effect, StreamEffect. rewrite !orb_false_iff.
    intros [[[H1 H2] H3] H4]. now rewrite H1, H2, H3, H4.
  - intros Hk Hsec Hs.
    unfold StreamEffect, streamRainbowEffect, streamPulseEffect, streamWaveEffect,
      streamRandomEffect.
    revert Hsec. generalize (seconds durationSec). intros dur Hdur.
    destruct (known_effect_cases _ Hk) as [ -> | [ -> | [ -> | -> ] ] ];
      cbn [String.eqb Ascii.eqb Bool.eqb].
    + apply rainbow_loop_no_time; assumption.
    + apply pulse_loop_no_time; assumption.
    + apply wave_loop_no_time; assumption.
    + apply random_loop_no_time; assumption.
  - intros Hd. apply seconds_exact. lia.
  - intros Hd.
    assert (E : seconds durationSec = durationSec * 1000000000 + 2 ^ 64).
    { unfold seconds, wrap64.
      change (2 ^ 63) with 9223372036854775808.
      change (2 ^ 64) with 18446744073709551616.
      rewrite <- (Z.mod_unique (durationSec * 1000000000 + 9223372036854775808)
                               18446744073709551616 (-1)
                               (durationSec * 1000000000 + 9223372036854775808
                                + 18446744073709551616)) by lia.
      lia. }
    split; [exact E|]. rewrite E.
    change (2 ^ 64) with 18446744073709551616. lia.
Qed.

Lemma effect_with_nothing_to_do_witness :
  known_effect "wave" = true
  /\ seconds (-3) <= 0
  /\ Forall (fun t => 0 <= t) [5; 16000000]
  /\ StreamEffect (fun _ => mkRGB 0 0 0) (fun _ => 0) (fun _ _ _ => mkRGB 0 0 0)
                  "wave" (-3) [5; 16000000] [] ex_stream
     = (ex_stream, None)
  /\ seconds (-9223372037) = 9223372036709551616.
Proof.
  assert (Hs : Forall (fun t => 0 <= t) [5; 16000000]) by (repeat constructor; lia).
  assert (Hd : seconds (-3) <= 0) by (vm_compute; discriminate).
  split; [reflexivity|]. split; [exact Hd|]. split; [exact Hs|]. split.
  - exact (proj1 (proj2 (effect_with_nothing_to_do (fun _ => mkRGB 0 0 0) (fun _ => 0)
                           (fun _ _ _ => mkRGB 0 0 0) "wave" (-3) [5; 16000000] []
                           ex_stream))
                 eq_refl Hd Hs).
  - reflexivity.
Defined.

(** X17.  The rainbow effect on an active session whose writes succeed
    sends one frame per tick and returns no error; the frame of tick [k]
    gives every light of the area the colour of the hue [2k mod 360], so the
    colours repeat every 180 ticks. *)
Theorem rainbow_frames
    (hsvToRGB : Z -> RGB) (pre rest : list Z) (durationSec : Z) (s : DTLSStream) :
  (forall h, RGB_ok (hsvToRGB h)) ->
  isActive s = true ->
  faults (conn s) = [] ->
  Forall (fun t => t < seconds durationSec) pre ->
  match rest with [] => True | t :: _ => seconds durationSec <= t end ->
  exists s' frames,
    streamRainbowEffect hsvToRGB (pre ++ rest) durationSec s = (s', None)
    /\ sent (conn s') = sent (conn s) ++ frames
    /\ length frames = length pre
    /\ forall (k : nat) (f : list Z) (i : nat) (id : string),
         frames !! k = Some f ->
         Lights (area s) !! i = Some id ->
         Frame.rgb_at i f
         = (Z.shiftl (R (hsvToRGB ((2 * Z.of_nat k) mod 360))) 8,
            Z.shiftl (G (hsvToRGB ((2 * Z.of_nat k) mod 360))) 8,
            Z.shiftl (B (hsvToRGB ((2 * Z.of_nat k) mod 360))) 8).
Proof.
  intros Hrgb Ha Hf Hpre Hrest. unfold streamRainbowEffect.
  revert Hpre Hrest. generalize (seconds durationSec). intros dur Hpre Hrest.
  change 0 with ((2 * 0) mod 360) at 1.
  destruct (rainbow_loop_frames hsvToRGB pre rest dur Hpre Hrest 0 s ltac:(lia) Ha Hf)
    as (s' & frames & E & Hs & Hl & _ & Hfr).
  exists s', frames. split; [exact E|]. split; [exact Hs|]. split; [exact Hl|].
  intros k f i id Hk Hi. destruct (Hfr k f Hk) as (sk & Hsk & ->).
  rewrite <- Hsk in Hi.
  assert (Hc : color_of (rainbow_colors hsvToRGB (Lights (area s)) ((2 * (0 + Z.of_nat k)) mod 360)) id
               = hsvToRGB ((2 * Z.of_nat k) mod 360)).
  { unfold color_of.
    rewrite rainbow_colors_lookup
      by (rewrite <- Hsk; now apply list_elem_of_lookup_2 in Hi).
    now replace (0 + Z.of_nat k) with (Z.of_nat k) by lia. }
  rewrite (rgb_at_color_of sk _ i id Hi) by (rewrite Hc; apply Hrgb).
  now rewrite Hc.
Qed.

Lemma rainbow_frames_witness :
  let hsv := fun h : Z => mkRGB (h mod 256) 0 0 in
  (forall h, RGB_ok (hsv h))
  /\ Forall (fun t => t < seconds 1) [0; 16000000]
  /\ exists s' frames,
       streamRainbowEffect hsv ([0; 16000000] ++ [1000000001]) 1 ex_stream = (s', None)
       /\ sent (conn s') = sent (conn ex_stream) ++ frames
       /\ length frames = 2%nat.
Proof.
  intros hsv.
  assert (Hrgb : forall h, RGB_ok (hsv h)).
  { intros h. unfold hsv, RGB_ok, Int.is_uint8. cbn.
    pose proof (Z.mod_pos_bound h 256). lia. }
  assert (Hpre : Forall (fun t => t < seconds 1) [0; 16000000]).
  { repeat constructor; vm_compute; reflexivity. }
  assert (Hrest : seconds 1 <= 1000000001) by (vm_compute; discriminate).
  split; [exact Hrgb|]. split; [exact Hpre|].
  destruct (rainbow_frames hsv [0; 16000000] [1000000001] 1 ex_stream
              Hrgb eq_refl eq_refl Hpre Hrest)
    as (s' & frames & E & Hs & Hl & _).
  exists s', frames. auto.
Defined.

(** X18.  An effect stops at the first send that fails: on a session that
    is closed, or whose write fails, a known effect with time left returns
    the send's error at its first tick, and no frame is written. *)
Theorem effect_stops_at_failed_send
    (hsvToRGB : Z -> RGB) (pulse_intensity : nat -> Z) (wave_color : Z -> nat -> nat -> RGB)
    (effectName : string) (durationSec t : Z) (since nanos : list Z) (s : DTLSStream) :
  known_effect effectName = true ->
  t < seconds durationSec ->
  send_fails s ->
  exists s' e,
    StreamEffect hsvToRGB pulse_intensity wave_color effectName durationSec
                 (t :: since) nanos s
    = (s', Some e)
    /\ sent (conn s') = sent (conn s)
    /\ session_state s' = session_state s.
Proof.
  intros Hk Ht Hf.
  unfold StreamEffect, streamRainbowEffect, streamPulseEffect, streamWaveEffect,
    streamRandomEffect.
  revert Ht. generalize (seconds durationSec). intros dur Ht.
  destruct (known_effect_cases _ Hk) as [ -> | [ -> | [ -> | -> ] ] ];
    cbn [String.eqb Ascii.eqb Bool.eqb].
  - cbn [rainbow_loop]. destruct (Z.ltb_spec t dur); [|lia].
    apply first_send_fails; assumption.
  - cbn [pulse_loop]. destruct (Z.ltb_spec t dur); [|lia].
    apply first_send_fails; assumption.
  - cbn [wave_loop]. destruct (Z.ltb_spec t dur); [|lia].
    apply first_send_fails; assumption.
  - cbn [random_loop]. destruct (Z.ltb_spec t dur); [|lia].
    destruct (random_colors _ _ _ _) as [colors nanos'].
    apply first_send_fails; assumption.
Qed.

Lemma effect_stops_at_failed_send_witness :
  known_effect "pulse" = true
  /\ 0 < seconds 5
  /\ send_fails (Close ex_stream)
  /\ exists s' e,
       StreamEffect (fun _ => mkRGB 0 0 0) (fun _ => 0) (fun _ _ _ => mkRGB 0 0 0)
                    "pulse" 5 [0; 16000000] [] (Close ex_stream)
       = (s', Some e)
       /\ sent (conn s') = sent (conn (Close ex_stream))
       /\ session_state s' = session_state (Close ex_stream).
Proof.
  assert (Ht : 0 < seconds 5) by (vm_compute; reflexivity).
  assert (Hf : send_fails (Close ex_stream)) by (left; reflexivity).
  split; [reflexivity|]. split; [exact Ht|]. split; [exact Hf|].
  exact (effect_stops_at_failed_send _ _ _ "pulse" 5 0 [16000000] [] (Close ex_stream)
           eq_refl Ht Hf).
Defined.

(** ** Running an effect from the command line *)

(** X19.  [streamEffect] first signals deactivation and pauses for half a
    second, then activates.  When the activation is accepted and the session
    opens, the effect runs on that fresh session, the session is closed, and
    streaming is deactivated last; the result is the effect's.  There is one
    opening, never a second. *)
Theorem streamEffect_on_dtls
    (hsvToRGB : Z -> RGB) (pulse_intensity : nat -> Z) (wave_color : Z -> nat -> nat -> RGB)
    (runEffect : string -> EntertainmentArea -> Z -> M (option string))
    (a : EntertainmentArea) (effectName : string) (durationSec : Z)
    (since nanos : list Z) (w : World) :
  activation_accepted w ->
  (forall e, head (opens w) <> Some (Fail e)) ->
  streamEffect hsvToRGB pulse_intensity wave_color runEffect
               a effectName durationSec since nanos w
  = ((StreamEffect hsvToRGB pulse_intensity wave_color effectName durationSec
                   since nanos (opened_session a w)).2,
     mkWorld (trace w ++ [EvDeactivate (ID a); EvSleep 500000000; EvActivate (ID a);
                          EvOpen (ID a); EvClose; EvDeactivate (ID a)])
             (tail (activations w)) (tail (opens w)) (serving w) (clock w)).
Proof.
  intros Hact Hopen. destruct w as [t acts os sv ck].
  unfold activation_accepted in Hact. cbn [activations opens] in *.
  assert (Hacts : match acts with Some e :: _ => False | _ => True end).
  { destruct acts as [|[e|] acts]; auto. exact (Hact e eq_refl). }
  assert (Hos : match os with Fail e :: _ => False | _ => True end).
  { destruct os as [|[c|e] os]; auto. exact (Hopen e eq_refl). }
  destruct acts as [|[e|] acts]; [|destruct Hacts|];
    (destruct os as [|[c|e1] os]; [| |destruct Hos]);
    unfold streamEffect, opened_session;
    cbv -[StreamEffect app]; rewrite <- ?app_assoc; reflexivity.
Qed.

Lemma streamEffect_on_dtls_witness :
  let w := mkWorld [] [] [] ServerClosed 0 in
  let nothing := fun (_ : string) (_ : EntertainmentArea) (_ : Z) (w : World) =>
                   (@None string, w) in
  activation_accepted w
  /\ (forall e, head (opens w) <> Some (Fail e))
  /\ streamEffect (fun _ => mkRGB 0 0 0) (fun _ => 0) (fun _ _ _ => mkRGB 0 0 0) nothing
                  ex_area "rainbow" 1 [0; 1000000001] [] w
     = (None,
        mkWorld [EvDeactivate "1"; EvSleep 500000000; EvActivate "1";
                 EvOpen "1"; EvClose; EvDeactivate "1"] [] [] ServerClosed 0).
Proof.
  intros w nothing.
  assert (Ha : activation_accepted w) by (intros e; discriminate).
  assert (Ho : forall e, head (opens w) <> Some (Fail e)) by (intros e; discriminate).
  split; [exact Ha|]. split; [exact Ho|].
  rewrite (streamEffect_on_dtls _ _ _ nothing ex_area "rainbow" 1 [0; 1000000001] [] w Ha Ho).
  reflexivity.
Defined.

(** X20.  When the session does not open, [streamEffect] does not try
    again: it runs the HTTP effect in the world as the failed opening left
    it, signals deactivation afterwards and returns the HTTP effect's
    result.  When the activation itself is refused, that error is returned
    as it is, nothing is opened and no deactivation follows. *)
Theorem streamEffect_fallback
    (hsvToRGB : Z -> RGB) (pulse_intensity : nat -> Z) (wave_color : Z -> nat -> nat -> RGB)
    (runEffect : string -> EntertainmentArea -> Z -> M (option string))
    (a : EntertainmentArea) (effectName : string) (durationSec : Z)
    (since nanos : list Z) (w : World) :
  (forall e, head (activations w) = Some (Some e) ->
     streamEffect hsvToRGB pulse_intensity wave_color runEffect
                  a effectName durationSec since nanos w
     = (Some e,
        mkWorld (trace w ++ [EvDeactivate (ID a); EvSleep 500000000; EvActivate (ID a)])
                (tail (activations w)) (opens w) (serving w) (clock w)))
  /\ (forall e, activation_accepted w -> head (opens w) = Some (Fail e) ->
      streamEffect hsvToRGB pulse_intensity wave_color runEffect
                   a effectName durationSec since nanos w
      = ((streamEffectHTTP runEffect a effectName durationSec (after_opening a w)).1,
         with_event (streamEffectHTTP runEffect a effectName durationSec (after_opening a w)).2
                    (EvDeactivate (ID a)))).
Proof.
  destruct w as [t acts os sv ck]. split.
  - intros e H. cbn [activations] in H.
    destruct acts as [|[e'|] acts]; try discriminate. injection H as ->.
    unfold streamEffect. cbv -[app]. rewrite <- ?app_assoc. reflexivity.
  - intros e Hact H. unfold activation_accepted in Hact. cbn [activations opens] in *.
    assert (Hacts : match acts with Some e :: _ => False | _ => True end).
    { destruct acts as [|[e'|] acts]; auto. exact (Hact e' eq_refl). }
    destruct os as [|[c|e'] os]; try discriminate.
    destruct acts as [|[e''|] acts]; [|destruct Hacts|];
      unfold streamEffect, after_opening, with_event;
      cbv -[streamEffectHTTP app]; rewrite <- ?app_assoc; cbn [app];
      destruct (streamEffectHTTP _ _ _ _ _) as [r w1]; reflexivity.
Qed.

Lemma streamEffect_fallback_witness :
  let w := mkWorld [] [] [Fail "DTLS handshake failed: timeout"] ServerClosed 0 in
  let nothing := fun (_ : string) (_ : EntertainmentArea) (_ : Z) (w : World) =>
                   (@None string, w) in
  activation_accepted w
  /\ head (opens w) = Some (Fail "DTLS handshake failed: timeout")
  /\ streamEffect (fun _ => mkRGB 0 0 0) (fun _ => 0) (fun _ _ _ => mkRGB 0 0 0) nothing
                  ex_area "rainbow" 1 [] [] w
     = (None,
        mkWorld [EvDeactivate "1"; EvSleep 500000000; EvActivate "1"; EvOpen "1";
                 EvDeactivate "1"] [] [] ServerClosed 0).
Proof.
  intros w nothing.
  assert (Ha : activation_accepted w) by (intros e; discriminate).
  split; [exact Ha|]. split; [reflexivity|].
  rewrite (proj2 (streamEffect_fallback (fun _ => mkRGB 0 0 0) (fun _ => 0)
                    (fun _ _ _ => mkRGB 0 0 0) nothing ex_area "rainbow" 1 [] [] w)
                 _ Ha eq_refl).
  reflexivity.
Defined.

(** ** What the bridge caches *)

Section Cache.

Lemma step_cache (b : Bridge) (e : Step) :
  lastColors (server (step b e)) = lastColors (server b)
  \/ exists p t l, e = Turn p t (JsonText l)
                   /\ message_in_range l
                   /\ lastColors (server (step b e)) = as_written ∅ l.
Proof.
  destruct e as [p|p now x|now]; cbn [step].
  - left. now case_bool_decide.
  - case_bool_decide; [|now left]. unfold ws_turn.
    destruct x as [|l]; [now left|].
    destruct (json_lights_spec l ∅) as [[Hall E]|[_ E]]; cbn [ReadJSON]; rewrite E;
      [|now left].
    cbn [fmap option_fmap option_map msg_Lights].
    destruct (dtlsStream (server b)) as [st|]; [|now left].
    rewrite copy_colors.
    destruct (SendColors st _) as [st' [err|]]; [now left|].
    right. exists p, now, l. auto.
  - left. cbn. apply keepAlive_tick_config.
Qed.

End Cache.

(** X21.  The colours the bridge caches for the keep-alive task are never
    made up: over any run that starts with an empty cache, the cache is
    either still empty or holds exactly the colours of a message of the run
    whose channels were within 0-255, so every cached channel is a
    [uint8]. *)
Theorem cache_holds_a_forwarded_message
    (s0 : WebSocketServer) (es : list Step) :
  lastColors s0 = ∅ ->
  (lastColors (server (run (serve_start s0) es)) = ∅
   \/ cached_from es (lastColors (server (run (serve_start s0) es))))
  /\ colors_ok (lastColors (server (run (serve_start s0) es))).
Proof.
  intros H0.
  assert (H : lastColors (server (run (serve_start s0) es)) = ∅
              \/ cached_from es (lastColors (server (run (serve_start s0) es)))).
  { induction es as [|e es IH] using rev_ind; [now left|].
    unfold run in *. rewrite fold_left_app. cbn [fold_left].
    destruct (step_cache (fold_left step es (serve_start s0)) e)
      as [E|(p & t & l & -> & Hl & E)].
    - rewrite E. destruct IH as [IH|(p & t & l & Hin & Hl & IH)]; [now left|].
      right. exists p, t, l. split; [|auto]. apply elem_of_app. now left.
    - right. exists p, t, l. split; [|auto]. apply elem_of_app. right. left. }
  split; [exact H|].
  destruct H as [->|(p & t & l & _ & Hl & ->)].
  - intros id c Hc. now rewrite lookup_empty in Hc.
  - intros id c Hc. apply as_written_lookup in Hc as [Hc|(jc & Hin & ->)].
    + now rewrite lookup_empty in Hc.
    + unfold message_in_range in Hl. rewrite Forall_forall in Hl.
      exact (Hl (id, jc) Hin).
Qed.

Lemma cache_holds_a_forwarded_message_witness :
  let es := [Upgrade 1; Turn 1 3 (JsonText [("5", mkJsonColor 255 0 0)]); Tick 4] in
  lastColors ex_server = ∅
  /\ colors_ok (lastColors (server (run (serve_start ex_server) es))).
Proof.
  intros es. split; [reflexivity|].
  exact (proj2 (cache_holds_a_forwarded_message ex_server es eq_refl)).
Defined.
